(** * gen: building Go syntax trees from strings

    A shallow embedding of [internal/gen/gen.go].  The package wraps
    [go/ast], [go/parser], [go/printer], [strconv], [strings], [fmt] and
    [reflect].  The small, fully specified library functions ([strings.SplitN],
    [strings.Contains], [strings.Title], [fmt.Sprintf] on string operands,
    [strconv.Itoa]) are written out; the Go parser, the printer, [strconv.Quote],
    the struct-tag reader and the Unicode tables are services supplied through
    the record [golib], so every statement below holds for any implementation
    of them.

    Text is a [string]: the sequence of bytes of a Go string.  Where the
    library reads text rune by rune ([strings.Title]) the bytes are decoded as
    UTF-8; the classification of the runes above 0x7F comes from the Unicode
    tables in [golib]. *)

From Stdlib Require Import String Ascii List Bool Arith PeanoNat NArith ZArith Lia Zify.
From Stdlib Require Import Decimal DecimalString.
Import ListNotations.
Open Scope string_scope.

(** ** Outcomes of Go calls *)

(** A Go [error] is represented by its message. *)
Definition error := string.

(** A call returning [(T, error)]: the value, or a non-nil error. *)
Inductive result (A : Type) : Type :=
| Ok (a : A)
| Err (e : error).
Arguments Ok {A} a.
Arguments Err {A} e.

(** A call that returns normally or panics with a message. *)
Inductive panics (A : Type) : Type :=
| Return (a : A)
| Panic (msg : string).
Arguments Return {A} a.
Arguments Panic {A} msg.

Definition bindP {A B : Type} (m : panics A) (k : A -> panics B) : panics B :=
  match m with
  | Return a => k a
  | Panic msg => Panic msg
  end.

Notation "x <- m ;; k" := (bindP m (fun x => k))
  (at level 61, m at next level, right associativity).

(** Dereferencing a pointer: a nil pointer panics. *)
Definition nilDeref : string :=
  "runtime error: invalid memory address or nil pointer dereference".

Definition deref {A : Type} (p : option A) : panics A :=
  match p with
  | Some a => Return a
  | None => Panic nilDeref
  end.

(** Indexing a slice: an index out of range panics. *)
Definition index {A : Type} (a : list A) (i : nat) : panics A :=
  match nth_error a i with
  | Some x => Return x
  | None => Panic "runtime error: index out of range"
  end.

Definition LF : ascii := "010"%char.
Definition CR : ascii := "013"%char.
Definition nl : string := String LF "".
Definition dquote : string := String "034"%char "".
Definition backquote : string := "`".

(** ** The services of the Go library the package relies on *)

Module token.

(** The token kinds the package mentions. *)
Inductive Token : Type :=
| INT | FLOAT | IMAG | CHAR | STRING
| CONST | TYPE | VAR | IMPORT | FUNC.

Definition Token_eqb (a b : Token) : bool :=
  match a, b with
  | INT, INT | FLOAT, FLOAT | IMAG, IMAG | CHAR, CHAR | STRING, STRING
  | CONST, CONST | TYPE, TYPE | VAR, VAR | IMPORT, IMPORT | FUNC, FUNC => true
  | _, _ => false
  end.

(** Source positions; [NoPos] is the zero value. *)
Definition Pos := nat.
Definition NoPos : Pos := 0.
Definition IsValid (p : Pos) : bool := negb (Nat.eqb p NoPos).

End token.

Module ast.

Record Ident : Type := { Ident_Name : string }.

Definition NewIdent (name : string) : Ident := {| Ident_Name := name |}.

Record BasicLit : Type := {
  BasicLit_Kind : token.Token;
  BasicLit_Value : string
}.

(** [ast.Expr] is an interface.  The package only ever asks whether an
    expression is an [*ast.Ident] or an [*ast.BasicLit]; the other node
    kinds listed are those of simple type expressions.  A nil interface
    value is [None] of [option Expr]. *)
Inductive Expr : Type :=
| EIdent (id : Ident)
| EBasicLit (lit : BasicLit)
| EStar (x : Expr)
| ESelector (x : Expr) (sel : Ident)
| EArray (elt : Expr).

Record Field : Type := {
  Field_Names : list Ident;
  Field_Type : option Expr;
  Field_Tag : option BasicLit
}.

Record FieldList : Type := { FieldList_List : list Field }.

Record StructType : Type := { StructType_Fields : option FieldList }.

Inductive Spec : Type :=
| TypeSpec (Name : option Ident) (Type_ : option Expr)
| ValueSpec (Names : list Ident) (Type_ : option Expr) (Values : list Expr).

(** A valid [Lparen] marks a parenthesized (grouped) declaration. *)
Record GenDecl : Type := {
  GenDecl_Tok : token.Token;
  GenDecl_Lparen : token.Pos;
  GenDecl_Specs : list Spec
}.

Record Comment : Type := { Comment_Text : string }.
Record CommentGroup : Type := { CommentGroup_List : list Comment }.

Inductive Stmt : Type :=
| ReturnStmt (Results : list Expr)
| ExprStmt (X : Expr).

Record BlockStmt : Type := { BlockStmt_List : list Stmt }.

Record FuncType : Type := {
  FuncType_Params : option FieldList;
  FuncType_Results : option FieldList
}.

Record FuncDecl : Type := {
  FuncDecl_Doc : option CommentGroup;
  FuncDecl_Recv : option FieldList;
  FuncDecl_Name : Ident;
  FuncDecl_Type : FuncType;
  FuncDecl_Body : option BlockStmt
}.

Inductive Decl : Type :=
| DFunc (d : FuncDecl)
| DGen (d : GenDecl).

Record File : Type := { File_Decls : list Decl }.

End ast.

(** The Go parser and printer, [strconv.Quote], [reflect.StructTag.Get] and
    the Unicode tables consulted for non-ASCII characters. *)
Record golib : Type := {
  parser_ParseExpr : string -> result ast.Expr;
  parser_ParseFile : string -> result ast.File;
  printer_Fprint : ast.Expr -> string;
  strconv_Quote : string -> string;
  reflect_StructTag_Get : string -> string -> string;
  unicode_IsLetter : N -> bool;
  unicode_IsDigit : N -> bool;
  unicode_IsSpace : N -> bool;
  unicode_To_TitleCase : N -> N
}.

(** ** unicode/utf8 *)

Module utf8.

(** Runes are code points; [RuneError] is U+FFFD and [MaxRune] U+10FFFF. *)
Definition RuneError : N := 65533.
Definition MaxRune : N := 1114111.

Definition inRange (lo hi b : N) : bool := N.leb lo b && N.leb b hi.

(** [utf8.DecodeRuneInString]: the first rune of [s] and its width in
    bytes.  The empty string gives [(RuneError, 0)]; a first byte that does
    not start a well-formed encoding (a stray continuation byte, a truncated,
    overlong or surrogate encoding, a rune above [MaxRune]) gives
    [(RuneError, 1)].  The masks and shifts of the library are written as
    [mod] and multiplication. *)
Definition DecodeRuneInString (s : string) : N * nat :=
  match s with
  | EmptyString => (RuneError, 0)
  | String c0 s1 =>
      let b0 := N_of_ascii c0 in
      if N.ltb b0 128 then (b0, 1)
      else if inRange 194 223 b0 then
        match s1 with
        | String c1 _ =>
            let b1 := N_of_ascii c1 in
            if inRange 128 191 b1
            then (((b0 mod 32) * 64 + b1 mod 64)%N, 2)
            else (RuneError, 1)
        | _ => (RuneError, 1)
        end
      else if inRange 224 239 b0 then
        match s1 with
        | String c1 (String c2 _) =>
            let b1 := N_of_ascii c1 in
            let b2 := N_of_ascii c2 in
            if inRange (if N.eqb b0 224 then 160 else 128)
                       (if N.eqb b0 237 then 159 else 191) b1
               && inRange 128 191 b2
            then (((b0 mod 16) * 4096 + (b1 mod 64) * 64 + b2 mod 64)%N, 3)
            else (RuneError, 1)
        | _ => (RuneError, 1)
        end
      else if inRange 240 244 b0 then
        match s1 with
        | String c1 (String c2 (String c3 _)) =>
            let b1 := N_of_ascii c1 in
            let b2 := N_of_ascii c2 in
            let b3 := N_of_ascii c3 in
            if inRange (if N.eqb b0 240 then 144 else 128)
                       (if N.eqb b0 244 then 143 else 191) b1
               && inRange 128 191 b2 && inRange 128 191 b3
            then (((b0 mod 8) * 262144 + (b1 mod 64) * 4096
                   + (b2 mod 64) * 64 + b3 mod 64)%N, 4)
            else (RuneError, 1)
        | _ => (RuneError, 1)
        end
      else (RuneError, 1)
  end.

Definition bytes (l : list N) : string :=
  string_of_list_ascii (map ascii_of_N l).

(** Runes that have no encoding: surrogates and runes above [MaxRune]. *)
Definition invalid (r : N) : bool := N.ltb MaxRune r || inRange 55296 57343 r.

(** [utf8.EncodeRune]: the UTF-8 encoding of [r]; a rune that has no
    encoding is written as [RuneError]. *)
Definition EncodeRune (r : N) : string :=
  if N.leb r 127 then bytes [r]
  else if N.leb r 2047 then bytes [192 + r / 64; 128 + r mod 64]%N
  else if invalid r then bytes [239; 191; 189]%N
  else if N.leb r 65535 then
    bytes [224 + r / 4096; 128 + (r / 64) mod 64; 128 + r mod 64]%N
  else
    bytes [240 + r / 262144; 128 + (r / 4096) mod 64;
           128 + (r / 64) mod 64; 128 + r mod 64]%N.


End utf8.

(** ** unicode *)

Module unicode.

Definition MaxASCII : nat := 127.

Definition between (lo hi c : ascii) : bool :=
  Nat.leb (nat_of_ascii lo) (nat_of_ascii c) && Nat.leb (nat_of_ascii c) (nat_of_ascii hi).

(** The rune of an ASCII character. *)
Definition rune (c : ascii) : N := N_of_ascii c.

(** [unicode.ToTitle]: for ASCII, title case is upper case. *)
Definition ToTitle (lib : golib) (r : N) : N :=
  if N.leb r (N.of_nat MaxASCII) then
    if utf8.inRange (rune "a") (rune "z") r then (r - 32)%N else r
  else unicode_To_TitleCase lib r.

End unicode.

(** ** strings *)

Module strings.

Fixpoint HasPrefix (s prefix : string) {struct prefix} : bool :=
  match prefix, s with
  | EmptyString, _ => true
  | String p prefix', String c s' => Ascii.eqb c p && HasPrefix s' prefix'
  | String _ _, EmptyString => false
  end.

Fixpoint drop (n : nat) (s : string) : string :=
  match n, s with
  | O, _ => s
  | S n', String _ s' => drop n' s'
  | S _, EmptyString => EmptyString
  end.

Fixpoint take (n : nat) (s : string) : string :=
  match n, s with
  | O, _ => EmptyString
  | S n', String c s' => String c (take n' s')
  | S _, EmptyString => EmptyString
  end.

Definition HasSuffix (s suffix : string) : bool :=
  Nat.leb (String.length suffix) (String.length s)
  && String.eqb (drop (String.length s - String.length suffix) s) suffix.

(** [strings.Index]: the position of the first instance of [substr] in
    [s]; [None] stands for -1. *)
Fixpoint Index (s substr : string) : option nat :=
  if HasPrefix s substr then Some 0
  else match s with
       | EmptyString => None
       | String _ s' => option_map S (Index s' substr)
       end.

Definition Contains (s substr : string) : bool :=
  match Index s substr with
  | Some _ => true
  | None => false
  end.

(** [strings.Count] for a non-empty [substr]: the number of
    non-overlapping instances.  Every round consumes at least one
    character, so [String.length s] rounds are enough. *)
Fixpoint countLoop (rounds : nat) (s substr : string) : nat :=
  match rounds with
  | O => 0
  | S rounds' =>
      match Index s substr with
      | None => 0
      | Some i => S (countLoop rounds' (drop (i + String.length substr) s) substr)
      end
  end.

Definition Count (s substr : string) : nat :=
  if String.eqb substr "" then S (String.length s)
  else countLoop (String.length s) s substr.

(** [explode]: split into single characters, at most [n] pieces, the last
    piece being the unsplit remainder. *)
Fixpoint explode (s : string) (n : nat) : list string :=
  match n with
  | O => []
  | S O => [s]
  | S n' =>
      match s with
      | EmptyString => []
      | String c s' => String c "" :: explode s' n'
      end
  end.

(** The loop of [genSplit]: [splits] is the number of cuts still allowed
    ([n-1-i] in the source); the remainder is the last piece. *)
Fixpoint splitLoop (splits : nat) (s sep : string) : list string :=
  match splits with
  | O => [s]
  | S splits' =>
      match Index s sep with
      | None => [s]
      | Some m => take m s :: splitLoop splits' (drop (m + String.length sep) s) sep
      end
  end.

(** [genSplit(s, sep, 0, n)]; [n = None] stands for a negative count
    (split at every separator). *)
Definition genSplit (s sep : string) (n : option nat) : list string :=
  match n with
  | Some O => []
  | _ =>
      if String.eqb sep "" then
        explode s (match n with Some k => Nat.min k (String.length s) | None => String.length s end)
      else
        let n' := match n with Some k => k | None => Count s sep + 1 end in
        splitLoop (n' - 1) s sep
  end.

Definition SplitN (s sep : string) (n : nat) : list string :=
  genSplit s sep (Some n).

Definition Split (s sep : string) : list string :=
  genSplit s sep None.

(** [isSeparator]: ASCII letters, digits and underscore are not
    separators, every other ASCII rune is; a non-ASCII rune is a separator
    when it is a space and neither a letter nor a digit. *)
Definition isSeparator (lib : golib) (r : N) : bool :=
  if N.leb r 127 then
    if utf8.inRange (unicode.rune "0") (unicode.rune "9") r then false
    else if utf8.inRange (unicode.rune "a") (unicode.rune "z") r then false
    else if utf8.inRange (unicode.rune "A") (unicode.rune "Z") r then false
    else if N.eqb r (unicode.rune "_") then false
    else true
  else if unicode_IsLetter lib r || unicode_IsDigit lib r then false
  else unicode_IsSpace lib r.

(** [strings.Map] with a mapping that keeps a state between calls (the
    variables its closure captures) and never drops a rune.  The runes of
    [s] are read in order; each is replaced by the encoding of its image.  A
    byte that is not valid UTF-8 is read as [RuneError], so it comes back as
    the encoding of the image of [RuneError].  [skip] counts the bytes of the
    current rune still to pass over. *)
Fixpoint mapRunes {St : Type} (mapping : St -> N -> St * N) (st : St)
         (skip : nat) (s : string) : string :=
  match s with
  | EmptyString => EmptyString
  | String _ s' =>
      match skip with
      | S skip' => mapRunes mapping st skip' s'
      | O =>
          let '(c, width) := utf8.DecodeRuneInString s in
          let '(st', r) := mapping st c in
          utf8.EncodeRune r ++ mapRunes mapping st' (width - 1) s'
      end
  end.

Definition Map {St : Type} (mapping : St -> N -> St * N) (st : St)
           (s : string) : string :=
  mapRunes mapping st 0 s.

(** The closure passed to [Map] by [Title]; its state is the captured
    [prev], the rune it was last called on. *)
Definition titleMapping (lib : golib) (prev r : N) : N * N :=
  (r, if isSeparator lib prev then unicode.ToTitle lib r else r).

Definition Title (lib : golib) (s : string) : string :=
  Map (titleMapping lib) (unicode.rune " ") s.

End strings.

(** ** strconv and fmt *)

Module strconv.

(** [strconv.Itoa] on a non-negative integer. *)
Definition Itoa (n : nat) : string :=
  NilZero.string_of_uint (Nat.to_uint n).

Fixpoint removeCR (s : string) : string :=
  match s with
  | EmptyString => EmptyString
  | String c s' => if Ascii.eqb c CR then removeCR s' else String c (removeCR s')
  end.

(** The value denoted by a raw (backquoted) string literal, as
    [strconv.Unquote] and the language define it: the text between the
    backquotes, which must not contain a backquote, with carriage returns
    discarded.  [None] when [lit] is not a raw string literal. *)
Definition UnquoteRaw (lit : string) : option string :=
  match lit with
  | String "`" rest =>
      let n := String.length rest in
      if Nat.leb 1 n && String.eqb (strings.drop (n - 1) rest) "`" then
        let inner := strings.take (n - 1) rest in
        if strings.Contains inner "`" then None
        else Some (removeCR inner)
      else None
  | _ => None
  end.

End strconv.

Module fmt.

Definition hexDigit (digits : string) (n : nat) : ascii :=
  nth n (list_ascii_of_string digits) "0"%char.

(** [%x] and [%X] on a string: two hexadecimal digits per character. *)
Fixpoint hex (digits : string) (a : string) : string :=
  match a with
  | EmptyString => EmptyString
  | String c a' =>
      String (hexDigit digits (nat_of_ascii c / 16))
        (String (hexDigit digits (nat_of_ascii c mod 16)) (hex digits a'))
  end.

(** Formatting of one string operand under a verb; a verb that does not
    apply to strings prints as [%!verb(string=operand)]. *)
Definition verb (lib : golib) (c : ascii) (a : string) : string :=
  if Ascii.eqb c "s" || Ascii.eqb c "v" then a
  else if Ascii.eqb c "q" then strconv_Quote lib a
  else if Ascii.eqb c "x" then hex "0123456789abcdef" a
  else if Ascii.eqb c "X" then hex "0123456789ABCDEF" a
  else if Ascii.eqb c "T" then "string"
  else "%!" ++ String c "" ++ "(string=" ++ a ++ ")".

Fixpoint extraList (v : list string) : string :=
  match v with
  | [] => ""
  | [a] => "string=" ++ a
  | a :: v' => "string=" ++ a ++ ", " ++ extraList v'
  end.

Definition extra (v : list string) : string :=
  match v with
  | [] => ""
  | _ => "%!(EXTRA " ++ extraList v ++ ")"
  end.

(** [fmt.Sprintf] for plain verbs (no flags or widths) and string
    operands; an error operand is passed as its message.  A verb without
    an operand prints as [%!verb(MISSING)]. *)
Fixpoint Sprintf (lib : golib) (format : string) (v : list string) : string :=
  match format with
  | EmptyString => extra v
  | String "%" EmptyString => "%!(NOVERB)" ++ extra v
  | String "%" (String c rest) =>
      if Ascii.eqb c "%" then String "%" (Sprintf lib rest v)
      else match v with
           | [] => "%!" ++ String c "" ++ "(MISSING)" ++ Sprintf lib rest []
           | a :: v' => verb lib c a ++ Sprintf lib rest v'
           end
  | String c rest => String c (Sprintf lib rest v)
  end.

Definition Errorf (lib : golib) (format : string) (v : list string) : error :=
  Sprintf lib format v.

End fmt.

Module errors.
Definition New (text : string) : error := text.
End errors.

(** ** The package *)

Module gen.

Import token ast.

Section Package.

Variable lib : golib.

(** TypeDecl generates a type declaration with the given name. *)
Definition TypeDecl (name : option Ident) (typ : option Expr) : GenDecl :=
  {| GenDecl_Tok := TYPE;
     GenDecl_Lparen := NoPos;
     GenDecl_Specs := [TypeSpec name typ] |}.

(** [for i := 0; i < n; i += 3 { body }] over a loop state.  After
    [rounds] iterations the index is [i + 3 * rounds], so [n] rounds
    always reach the exit test. *)
Fixpoint forBy3 {St : Type} (rounds i n : nat)
         (body : nat -> St -> panics St) (st : St) : panics St :=
  match rounds with
  | O => Return st
  | S rounds' =>
      if Nat.ltb i n then
        st' <- body i st ;; forBy3 rounds' (i + 3) n body st'
      else Return st
  end.

(** The type assertions [x.( *ast.Ident)] and [x.( *ast.BasicLit)]. *)
Definition assertIdent (x : Expr) : panics Ident :=
  match x with
  | EIdent id => Return id
  | _ => Panic "interface conversion: ast.Expr is not *ast.Ident"
  end.

Definition assertBasicLit (x : Expr) : panics BasicLit :=
  match x with
  | EBasicLit lit => Return lit
  | _ => Panic "interface conversion: ast.Expr is not *ast.BasicLit"
  end.

(** One iteration of the loop of [Struct]. *)
Definition structStep (args : list (option Expr)) (i : nat)
           (fields : list Field) : panics (list Field) :=
  name <- index args i ;;
  typ <- index args (i + 1) ;;
  tag <- index args (i + 2) ;;
  names <- match name with
           | Some x => id <- assertIdent x ;; Return [id]
           | None => Return []
           end ;;
  tagLit <- match tag with
            | Some x => lit <- assertBasicLit x ;; Return (Some lit)
            | None => Return None
            end ;;
  Return (fields ++ [ {| Field_Names := names;
                         Field_Type := typ;
                         Field_Tag := tagLit |} ])%list.

(** Struct creates a struct{} expression from name/type/tag tuples. *)
Definition Struct (args : list (option Expr)) : panics StructType :=
  if negb (Nat.eqb (Nat.modulo (length args) 3) 0) then
    Panic ("Number of args to FieldList must be a multiple of 3, got "
             ++ strconv.Itoa (length args))
  else
    fields <- forBy3 (length args) 0 (length args) (structStep args) [] ;;
    Return {| StructType_Fields := Some {| FieldList_List := fields |} |}.

(** The [range] loop of [FieldList]; [res] is [result.List]. *)
Fixpoint fieldListLoop (fields : list string) (res : list Field)
  : result FieldList :=
  match fields with
  | [] => Ok {| FieldList_List := res |}
  | s :: rest =>
      let parts := strings.SplitN s " " 2 in
      if Nat.eqb (length parts) 0 then
        Err (fmt.Errorf lib "empty field list item %q" [s])
      else
        match parser_ParseExpr lib (nth (length parts - 1) parts "") with
        | Err err =>
            Err (fmt.Errorf lib "could not parse type in %q: %v" [s; err])
        | Ok typeExpr =>
            let names :=
              if Nat.ltb 1 (length parts)
              then [NewIdent (nth 0 parts "")] else [] in
            fieldListLoop rest
              (res ++ [ {| Field_Names := names;
                           Field_Type := Some typeExpr;
                           Field_Tag := None |} ])%list
        end
  end.

(** FieldList generates a field list from strings in the form
    "[name] expr". *)
Definition FieldList (fields : list string) : result ast.FieldList :=
  fieldListLoop fields [].

(** Public turns a string into a public (uppercase) identifier. *)
Definition Public (name : string) : Ident :=
  NewIdent (strings.Title lib name).

(** One iteration of the loop of [constDecl]. *)
Definition constStep (kind : Token) (args : list string) (i : nat)
           (specs : list Spec) : panics (list Spec) :=
  name <- index args i ;;
  typ <- index args (i + 1) ;;
  val <- index args (i + 2) ;;
  let lit := {| BasicLit_Kind := kind;
                BasicLit_Value :=
                  if Token_eqb kind STRING then strconv_Quote lib val
                  else val |} in
  let a := ValueSpec [NewIdent name]
             (if String.eqb typ "" then None
              else Some (EIdent (NewIdent typ)))
             [EBasicLit lit] in
  Return (specs ++ [a])%list.

Definition constDecl (kind : Token) (args : list string) : panics GenDecl :=
  if negb (Nat.eqb (Nat.modulo (length args) 3) 0) then
    Panic "Number of values passed to ConstString must be a multiple of 3"
  else
    specs <- forBy3 (length args) 0 (length args) (constStep kind args) [] ;;
    Return {| GenDecl_Tok := CONST;
              GenDecl_Lparen := if Nat.ltb 1 (length specs) then 1 else NoPos;
              GenDecl_Specs := specs |}.

(** SimpleType creates an identifier suitable for use as a type
    expression. *)
Definition SimpleType (name : string) : Expr := EIdent (NewIdent name).

Definition ConstInt (args : list string) := constDecl INT args.
Definition ConstString (args : list string) := constDecl STRING args.
Definition ConstFloat (args : list string) := constDecl FLOAT args.
Definition ConstChar (args : list string) := constDecl CHAR args.
Definition ConstImaginary (args : list string) := constDecl IMAG args.

(** The first [*ast.FuncDecl] among the declarations of a file. *)
Fixpoint firstFuncDecl (decls : list Decl) : option FuncDecl :=
  match decls with
  | [] => None
  | DFunc d :: _ => Some d
  | _ :: rest => firstFuncDecl rest
  end.

(** The text handed to the file parser for a body [s]. *)
Definition wrapBlock (s : string) : string :=
  fmt.Sprintf lib ("package tmp" ++ nl ++ "func _block() {" ++ nl ++ "%s" ++ nl ++ "}") [s].

Definition parseBlock (s : string) : result (option BlockStmt) :=
  let buf := wrapBlock s in
  match parser_ParseFile lib buf with
  | Err err => Err err
  | Ok file =>
      match firstFuncDecl (File_Decls file) with
      | Some decl => Ok (FuncDecl_Body decl)
      | None =>
          Err (fmt.Errorf lib "parse error: no function found in %q" [buf])
      end
  end.

(** ExprString converts an ast.Expr to the Go source it represents. *)
Definition ExprString (expr : Expr) : string := printer_Fprint lib expr.

(** TagKey gets the struct tag item with the given key. *)
Definition TagKey (field : Field) (key : string) : panics string :=
  match Field_Tag field with
  | Some _ => Return ""
  | None =>
      tag <- deref (Field_Tag field) ;;
      Return (reflect_StructTag_Get lib (BasicLit_Value tag) key)
  end.

Record Function : Type := {
  name : string;
  receiver : string;
  godoc : string;
  args : list string;
  returns : list string;
  body : string
}.

Definition Func (name : string) : Function :=
  {| name := name; receiver := ""; godoc := "";
     args := []; returns := []; body := "" |}.

(** The closure [fl] of [Decl]; the captured variable [err] is passed in
    and handed back. *)
Definition fl (err : option error) (args : list string)
  : option ast.FieldList * option error :=
  match args with
  | [] => (None, err)
  | a0 :: _ =>
      if Nat.eqb (String.length a0) 0 then (None, err)
      else match err with
           | Some _ => (None, err)
           | None =>
               match FieldList args with
               | Ok list => (Some list, None)
               | Err e => (None, Some e)
               end
           end
  end.

(** Decl generates Go source for a Func. *)
Definition Decl (fn : Function) : result FuncDecl :=
  if String.eqb (name fn) "" then
    Err (errors.New "function name unset")
  else if Nat.eqb (String.length (body fn)) 0 then
    Err (fmt.Errorf lib "function body for %s unset" [])
  else
    let comments :=
      if negb (String.eqb (godoc fn) "") then
        Some {| CommentGroup_List :=
                  map (fun line => {| Comment_Text := line |})
                      (strings.Split (godoc fn) nl) |}
      else None in
    let '(args_, err) := fl None (args fn) in
    let '(returns_, err) := fl err (returns fn) in
    let '(receiver_, err) := fl err [receiver fn] in
    match err with
    | Some e => Err e
    | None =>
        match parseBlock (body fn) with
        | Err e =>
            Err (fmt.Errorf lib "could not parse function body of %s: %v"
                   [name fn; e])
        | Ok body_ =>
            Ok {| FuncDecl_Doc := comments;
                  FuncDecl_Recv := receiver_;
                  FuncDecl_Name := NewIdent (name fn);
                  FuncDecl_Type := {| FuncType_Params := args_;
                                      FuncType_Results := returns_ |};
                  FuncDecl_Body := body_ |}
        end
    end.

(** The setters; each returns the updated builder. *)
Definition Body (fn : Function) (format : string) (v : list string) : Function :=
  {| name := name fn; receiver := receiver fn; godoc := godoc fn;
     args := args fn; returns := returns fn;
     body := fmt.Sprintf lib format v |}.

Definition Returns (fn : Function) (values : list string) : Function :=
  {| name := name fn; receiver := receiver fn; godoc := godoc fn;
     args := args fn; returns := values; body := body fn |}.

Definition Comment (fn : Function) (s : string) : Function :=
  {| name := name fn; receiver := receiver fn; godoc := s;
     args := args fn; returns := returns fn; body := body fn |}.

Definition Args (fn : Function) (args_ : list string) : Function :=
  {| name := name fn; receiver := receiver fn; godoc := godoc fn;
     args := args_; returns := returns fn; body := body fn |}.

Definition Receiver (fn : Function) (receiver_ : string) : Function :=
  {| name := name fn; receiver := receiver_; godoc := godoc fn;
     args := args fn; returns := returns fn; body := body fn |}.

(** String generates a literal string.  If the string contains a double
    quote, backticks are used for quoting instead. *)
Definition String (s : string) : BasicLit :=
  if strings.Contains s dquote && negb (strings.Contains s backquote) then
    {| BasicLit_Kind := STRING;
       BasicLit_Value := backquote ++ s ++ backquote |}
  else
    {| BasicLit_Kind := STRING; BasicLit_Value := strconv_Quote lib s |}.

End Package.

End gen.

(** ** A small library instance

    A concrete [golib] on which the package can be run: [strconv.Quote] for
    ASCII text, a parser for the expressions [ident] and [*ident] and for
    function bodies made of one such expression or one [return], a reader for
    tags that hold a single [key:"value"] pair, and Unicode tables that
    classify no character above 0x7F.  Its parser diagnostics have the shape
    of [go/parser] errors: a position and a message. *)

Module sample.

Import token ast.

Definition quoteChar (c : ascii) : string :=
  let n := nat_of_ascii c in
  if Nat.eqb n 34 then "\" ++ dquote
  else if Nat.eqb n 92 then "\\"
  else if Nat.leb 32 n && Nat.leb n 126 then String c ""
  else if Nat.eqb n 7 then "\a"
  else if Nat.eqb n 8 then "\b"
  else if Nat.eqb n 12 then "\f"
  else if Nat.eqb n 10 then "\n"
  else if Nat.eqb n 13 then "\r"
  else if Nat.eqb n 9 then "\t"
  else if Nat.eqb n 11 then "\v"
  else "\x" ++ fmt.hex "0123456789abcdef" (String c "").

Fixpoint quoteBody (s : string) : string :=
  match s with
  | EmptyString => EmptyString
  | String c s' => quoteChar c ++ quoteBody s'
  end.

Definition Quote (s : string) : string := dquote ++ quoteBody s ++ dquote.

Definition isIdentChar (c : ascii) : bool :=
  unicode.between "a" "z" c || unicode.between "A" "Z" c
  || unicode.between "0" "9" c || Ascii.eqb c "_".

Fixpoint allIdentChars (s : string) : bool :=
  match s with
  | EmptyString => true
  | String c s' => isIdentChar c && allIdentChars s'
  end.

Definition isIdent (s : string) : bool :=
  match s with
  | EmptyString => false
  | String c _ => negb (unicode.between "0" "9" c) && allIdentChars s
  end.

Definition ParseExpr (x : string) : result Expr :=
  match x with
  | EmptyString => Err "1:1: expected operand, found 'EOF'"
  | String "*" x' =>
      if isIdent x' then Ok (EStar (EIdent (NewIdent x')))
      else Err "1:2: expected operand"
  | _ =>
      if isIdent x then Ok (EIdent (NewIdent x))
      else Err "1:1: expected operand"
  end.

Definition header : string := "package tmp" ++ nl ++ "func _block() {" ++ nl.
Definition footer : string := nl ++ "}".

Definition blockFile (stmts : list Stmt) : File :=
  {| File_Decls :=
       [DFunc {| FuncDecl_Doc := None;
                 FuncDecl_Recv := None;
                 FuncDecl_Name := NewIdent "_block";
                 FuncDecl_Type := {| FuncType_Params := Some {| FieldList_List := [] |};
                                     FuncType_Results := None |};
                 FuncDecl_Body := Some {| BlockStmt_List := stmts |} |}] |}.

Definition ParseFile (src : string) : result File :=
  let n := String.length src in
  let h := String.length header in
  let f := String.length footer in
  if strings.HasPrefix src header && Nat.leb (h + f) n
     && String.eqb (strings.drop (n - f) src) footer then
    let inner := strings.take (n - h - f) (strings.drop h src) in
    if String.eqb inner "" then Ok (blockFile [])
    else if String.eqb inner "return" then Ok (blockFile [ReturnStmt []])
    else if strings.HasPrefix inner "return " then
      match ParseExpr (strings.drop 7 inner) with
      | Ok e => Ok (blockFile [ReturnStmt [e]])
      | Err _ => Err "3:8: expected operand"
      end
    else
      match ParseExpr inner with
      | Ok e => Ok (blockFile [ExprStmt e])
      | Err _ => Err "3:1: expected statement"
      end
  else Err "1:1: expected 'package'".

Definition Fprint (e : Expr) : string :=
  match e with
  | EIdent id => Ident_Name id
  | EStar (EIdent id) => "*" ++ Ident_Name id
  | EBasicLit lit => BasicLit_Value lit
  | _ => ""
  end.

(** The value of [key] in a tag of the form [key:"value"]. *)
Definition StructTag_Get (tag key : string) : string :=
  let prefix := key ++ ":" ++ dquote in
  let n := String.length tag in
  let p := String.length prefix in
  if strings.HasPrefix tag prefix && Nat.leb (p + 1) n
     && String.eqb (strings.drop (n - 1) tag) dquote
  then strings.take (n - p - 1) (strings.drop p tag)
  else "".

Definition lib : golib :=
  {| parser_ParseExpr := ParseExpr;
     parser_ParseFile := ParseFile;
     printer_Fprint := Fprint;
     strconv_Quote := Quote;
     reflect_StructTag_Get := StructTag_Get;
     unicode_IsLetter := fun _ => false;
     unicode_IsDigit := fun _ => false;
     unicode_IsSpace := fun _ => false;
     unicode_To_TitleCase := fun r => r |}.

End sample.


(** ** Reading the arguments of the triple builders

    [Struct] and [constDecl] take a flat argument list read three at a time.
    The definitions below name the three components of the [j]-th triple. *)

Module triples.

Import token ast.

Definition nameArg {A : Type} (d : A) (args : list A) (j : nat) : A := nth (3 * j) args d.
Definition typeArg {A : Type} (d : A) (args : list A) (j : nat) : A := nth (3 * j + 1) args d.
Definition lastArg {A : Type} (d : A) (args : list A) (j : nat) : A := nth (3 * j + 2) args d.

(** A name argument is nil or an [*ast.Ident]; a tag argument is nil or
    an [*ast.BasicLit], as the documentation of [Struct] requires. *)
Definition nameOk (x : option Expr) : bool :=
  match x with
  | None | Some (EIdent _) => true
  | _ => false
  end.

Definition tagOk (x : option Expr) : bool :=
  match x with
  | None | Some (EBasicLit _) => true
  | _ => false
  end.

Definition wellTyped (args : list (option Expr)) : Prop :=
  forall j, j < length args / 3 ->
    nameOk (nameArg None args j) = true /\ tagOk (lastArg None args j) = true.

(** The field described by the [j]-th triple. *)
Definition fieldOf (args : list (option Expr)) (j : nat) : Field :=
  {| Field_Names := match nameArg None args j with
                    | Some (EIdent id) => [id]
                    | _ => []
                    end;
     Field_Type := typeArg None args j;
     Field_Tag := match lastArg None args j with
                  | Some (EBasicLit lit) => Some lit
                  | _ => None
                  end |}.

(** The constant spec described by the [j]-th (name, type, value)
    triple. *)
Definition constSpecOf (lib : golib) (kind : Token) (args : list string)
           (j : nat) : Spec :=
  ValueSpec [NewIdent (nameArg "" args j)]
    (if String.eqb (typeArg "" args j) "" then None
     else Some (EIdent (NewIdent (typeArg "" args j))))
    [EBasicLit {| BasicLit_Kind := kind;
                  BasicLit_Value :=
                    if Token_eqb kind STRING
                    then strconv_Quote lib (lastArg "" args j)
                    else lastArg "" args j |}].

End triples.

(** ** Names that title-casing leaves alone *)

Module words.




End words.

(** ** Reading descriptors

    How a field descriptor "[name] expr" is cut, and what a group of
    descriptors of a [Function] stands for. *)

Module descr.

Import ast.

(** The type text of a descriptor: everything after its first space, or
    the whole descriptor when it has no space. *)
Definition typeText (s : string) : string :=
  match strings.Index s " " with
  | Some m => strings.drop (m + 1) s
  | None => s
  end.

(** The names of a descriptor: the text before its first space, if any. *)
Definition names (s : string) : list Ident :=
  match strings.Index s " " with
  | Some m => [NewIdent (strings.take m s)]
  | None => []
  end.

Definition fieldOf (s : string) (typeExpr : Expr) : Field :=
  {| Field_Names := names s; Field_Type := Some typeExpr; Field_Tag := None |}.

(** The descriptor's type text is accepted by the expression parser. *)
Definition parses (lib : golib) (s : string) : Prop :=
  exists typeExpr, parser_ParseExpr lib (typeText s) = Ok typeExpr.

(** A group of descriptors (arguments, returns, or the receiver alone):
    no list at all when the group is empty or starts with the empty
    descriptor, the parsed field list otherwise. *)
Definition group (lib : golib) (items : list string) : result (option FieldList) :=
  match items with
  | [] => Ok None
  | a0 :: _ =>
      if String.eqb a0 "" then Ok None
      else match gen.FieldList lib items with
           | Ok list => Ok (Some list)
           | Err e => Err e
           end
  end.

(** [strings.Join]. *)
Fixpoint Join (elems : list string) (sep : string) : string :=
  match elems with
  | [] => ""
  | [a] => a
  | a :: rest => a ++ sep ++ Join rest sep
  end.

Fixpoint isASCII (s : string) : bool :=
  match s with
  | EmptyString => true
  | String c s' => Nat.leb (nat_of_ascii c) unicode.MaxASCII && isASCII s'
  end.

End descr.

(** * Properties *)

Import token ast.

(** Case analysis on every test and pattern match of the goal. *)
Ltac split_decl :=
  repeat match goal with
         | |- context [if ?b then _ else _] => destruct b
         | |- context [let '(_, _) := ?p in _] => destruct p
         | |- context [match ?x with _ => _ end] => destruct x
         end.

(** ** The stride-3 loop *)

Lemma forBy3_collect {X : Type} (body : nat -> list X -> panics (list X))
      (f : nat -> X) (m : nat) :
  (forall j acc, j < m -> body (3 * j) acc = Return (acc ++ [f j])%list) ->
  forall rounds k acc, k <= m -> m <= k + rounds ->
    gen.forBy3 rounds (3 * k) (3 * m) body acc
    = Return (acc ++ map f (seq k (m - k)))%list.
Proof.
  intros Hbody rounds.
  induction rounds as [|rounds IH]; intros k acc Hk Hm.
  - replace (m - k) with 0 by lia. simpl. now rewrite app_nil_r.
  - cbn [gen.forBy3].
    destruct (Nat.ltb_spec (3 * k) (3 * m)) as [Hlt|Hge].
    + assert (k < m) as Hkm by lia.
      rewrite (Hbody k acc Hkm). cbn [bindP].
      replace (3 * k + 3) with (3 * S k) by lia.
      rewrite IH by lia.
      replace (m - k) with (S (m - S k)) by lia.
      simpl. now rewrite <- app_assoc.
    + replace (m - k) with 0 by lia. simpl. now rewrite app_nil_r.
Qed.

Lemma length_triples {A : Type} (args : list A) :
  length args mod 3 = 0 -> length args = 3 * (length args / 3).
Proof.
  intros H. apply Nat.Div0.div_exact in H. exact H.
Qed.

Lemma index_nth {A : Type} (a : list A) (i : nat) (d : A) :
  i < length a -> index a i = Return (nth i a d).
Proof.
  intros H. unfold index. now rewrite (nth_error_nth' a d H).
Qed.

(** ** Struct *)

Lemma structStep_fieldOf (args : list (option Expr)) (j : nat) (acc : list Field) :
  length args mod 3 = 0 -> triples.wellTyped args -> j < length args / 3 ->
  gen.structStep args (3 * j) acc = Return (acc ++ [triples.fieldOf args j])%list.
Proof.
  intros Hmod Hwt Hj.
  pose proof (length_triples args Hmod) as Hlen.
  destruct (Hwt j Hj) as [Hname Htag].
  unfold gen.structStep, triples.fieldOf.
  rewrite (index_nth args (3 * j) None) by lia.
  rewrite (index_nth args (3 * j + 1) None) by lia.
  rewrite (index_nth args (3 * j + 2) None) by lia.
  unfold triples.nameArg, triples.typeArg, triples.lastArg in *.
  cbn [bindP].
  destruct (nth (3 * j) args None) as [[id| | | |]|];
    cbn [triples.nameOk] in Hname; try discriminate;
    destruct (nth (3 * j + 2) args None) as [[|lit| | |]|];
    cbn [triples.tagOk] in Htag; try discriminate;
    reflexivity.
Qed.

(** C7 (amended).  An argument list whose length is not a multiple of 3
    makes [Struct] panic.  An argument list whose length is a multiple of 3
    and whose name and tag arguments are nil or of the documented node kinds
    yields a struct with exactly [length / 3] fields, the [j]-th field built
    from the [j]-th (name, type, tag) triple. *)
Theorem Struct_triples (args : list (option Expr)) :
  (length args mod 3 <> 0 ->
     gen.Struct args
     = Panic ("Number of args to FieldList must be a multiple of 3, got "
                ++ strconv.Itoa (length args)))
  /\
  (length args mod 3 = 0 -> triples.wellTyped args ->
     exists fields,
       gen.Struct args
       = Return {| StructType_Fields := Some {| FieldList_List := fields |} |}
       /\ length fields = length args / 3
       /\ forall j, j < length args / 3 ->
            nth_error fields j = Some (triples.fieldOf args j)).
Proof.
  split.
  - intros Hmod. unfold gen.Struct.
    destruct (Nat.eqb_spec (length args mod 3) 0) as [E|E]; [contradiction|reflexivity].
  - intros Hmod Hwt.
    exists (map (triples.fieldOf args) (seq 0 (length args / 3))).
    split; [|split].
    + unfold gen.Struct. rewrite Hmod. simpl negb. cbv iota.
      pose proof (length_triples args Hmod) as Hlen.
      pose proof (forBy3_collect (gen.structStep args) (triples.fieldOf args)
                    (length args / 3)
                    (fun j acc Hj => structStep_fieldOf args j acc Hmod Hwt Hj)
                    (length args) 0 [] (Nat.le_0_l _)) as Hloop.
      rewrite <- Hlen in Hloop. simpl (3 * 0) in Hloop.
      rewrite Hloop by lia.
      rewrite Nat.sub_0_r. reflexivity.
    + now rewrite length_map, length_seq.
    + intros j Hj.
      rewrite nth_error_map, nth_error_seq.
      destruct (Nat.ltb_spec j (length args / 3)); [reflexivity|lia].
Qed.

Lemma Struct_triples_witness :
  (length [@None Expr] mod 3 <> 0
   /\ gen.Struct [None]
      = Panic "Number of args to FieldList must be a multiple of 3, got 1")
  /\
  (let args := [Some (EIdent (NewIdent "X")); Some (gen.SimpleType "int"); None;
                None; Some (gen.SimpleType "Base");
                Some (EBasicLit {| BasicLit_Kind := STRING; BasicLit_Value := "`k`" |})] in
   length args mod 3 = 0 /\ triples.wellTyped args /\
   exists fields,
     gen.Struct args
     = Return {| StructType_Fields := Some {| FieldList_List := fields |} |}
     /\ length fields = length args / 3
     /\ forall j, j < length args / 3 ->
          nth_error fields j = Some (triples.fieldOf args j)).
Proof.
  split.
  - assert (length [@None Expr] mod 3 <> 0) as H by (simpl; discriminate).
    split; [exact H|].
    exact (proj1 (Struct_triples [None]) H).
  - cbv zeta.
    match goal with
    | |- ?A /\ ?B /\ _ => assert (A) as Hmod by reflexivity; assert (B) as Hwt
    end.
    { intros j Hj. simpl in Hj.
      destruct j as [|[|j]]; [split; reflexivity|split; reflexivity|lia]. }
    split; [exact Hmod|]. split; [exact Hwt|].
    exact (proj2 (Struct_triples _) Hmod Hwt).
Defined.

(** C7 (as stated) fails: three arguments whose name position holds a
    basic literal make [Struct] panic in the type assertion. *)
Lemma Struct_triples_counterexample :
  length [Some (EBasicLit {| BasicLit_Kind := STRING; BasicLit_Value := "`k`" |});
          Some (gen.SimpleType "int"); None] mod 3 = 0
  /\ gen.Struct [Some (EBasicLit {| BasicLit_Kind := STRING; BasicLit_Value := "`k`" |});
                 Some (gen.SimpleType "int"); None]
     = Panic "interface conversion: ast.Expr is not *ast.Ident".
Proof.
  split; reflexivity.
Qed.

(** ** constDecl *)

Lemma constStep_specOf (lib : golib) (kind : Token) (args : list string)
      (j : nat) (acc : list Spec) :
  length args mod 3 = 0 -> j < length args / 3 ->
  gen.constStep lib kind args (3 * j) acc
  = Return (acc ++ [triples.constSpecOf lib kind args j])%list.
Proof.
  intros Hmod Hj.
  pose proof (length_triples args Hmod) as Hlen.
  unfold gen.constStep, triples.constSpecOf,
    triples.nameArg, triples.typeArg, triples.lastArg.
  rewrite (index_nth args (3 * j) "") by lia.
  rewrite (index_nth args (3 * j + 1) "") by lia.
  rewrite (index_nth args (3 * j + 2) "") by lia.
  reflexivity.
Qed.

Lemma constDecl_returns (lib : golib) (kind : Token) (args : list string) :
  length args mod 3 = 0 ->
  gen.constDecl lib kind args
  = Return {| GenDecl_Tok := CONST;
              GenDecl_Lparen := if Nat.ltb 1 (length args / 3) then 1 else NoPos;
              GenDecl_Specs := map (triples.constSpecOf lib kind args)
                                   (seq 0 (length args / 3)) |}.
Proof.
  intros Hmod. unfold gen.constDecl. rewrite Hmod. cbn [Nat.eqb negb].
  pose proof (length_triples args Hmod) as Hlen.
  pose proof (forBy3_collect (gen.constStep lib kind args)
                (triples.constSpecOf lib kind args) (length args / 3)
                (fun j acc Hj => constStep_specOf lib kind args j acc Hmod Hj)
                (length args) 0 [] (Nat.le_0_l _)) as Hloop.
  rewrite <- Hlen in Hloop. change (3 * 0) with 0 in Hloop.
  rewrite Hloop by lia.
  rewrite Nat.sub_0_r. cbn [bindP]. rewrite !app_nil_l.
  now rewrite length_map, length_seq.
Qed.

Lemma Token_eqb_eq (a b : Token) : Token_eqb a b = true <-> a = b.
Proof.
  split.
  - destruct a, b; simpl; intros H; try reflexivity; discriminate.
  - intros ->. destruct b; reflexivity.
Qed.

(** C8.  A constant declaration built from (name, optional type, value)
    triples has one spec per triple; its literal is [strconv.Quote] of the
    value when the kind is STRING and the value text itself for every other
    kind; and the declaration is marked as grouped (a valid [Lparen]) exactly
    when it has more than one spec. *)
Theorem constDecl_specs (lib : golib) (kind : Token) (args : list string) :
  length args mod 3 = 0 ->
  exists decl,
    gen.constDecl lib kind args = Return decl
    /\ GenDecl_Tok decl = CONST
    /\ length (GenDecl_Specs decl) = length args / 3
    /\ (forall j, j < length args / 3 ->
          exists ty lit,
            nth_error (GenDecl_Specs decl) j
            = Some (ValueSpec [NewIdent (triples.nameArg "" args j)] ty [EBasicLit lit])
            /\ (triples.typeArg "" args j = "" -> ty = None)
            /\ (triples.typeArg "" args j <> "" ->
                 ty = Some (EIdent (NewIdent (triples.typeArg "" args j))))
            /\ BasicLit_Kind lit = kind
            /\ (kind = STRING ->
                 BasicLit_Value lit = strconv_Quote lib (triples.lastArg "" args j))
            /\ (kind <> STRING -> BasicLit_Value lit = triples.lastArg "" args j))
    /\ (token.IsValid (GenDecl_Lparen decl) = true
        <-> 1 < length (GenDecl_Specs decl)).
Proof.
  intros Hmod.
  eexists. split; [apply (constDecl_returns lib kind args Hmod)|].
  cbn [GenDecl_Tok GenDecl_Specs GenDecl_Lparen].
  rewrite length_map, length_seq.
  split; [reflexivity|]. split; [reflexivity|]. split.
  - intros j Hj.
    rewrite nth_error_map, nth_error_seq.
    destruct (Nat.ltb_spec j (length args / 3)) as [_|]; [|lia].
    cbn [option_map Nat.add]. unfold triples.constSpecOf.
    do 2 eexists. split; [reflexivity|].
    split; [|split; [|split; [reflexivity|split]]].
    + intros ->. reflexivity.
    + intros Hne. destruct (String.eqb_spec (triples.typeArg "" args j) "");
        [contradiction|reflexivity].
    + intros ->. reflexivity.
    + intros Hne. cbn [BasicLit_Value].
      destruct (Token_eqb kind STRING) eqn:E; [|reflexivity].
      apply Token_eqb_eq in E. contradiction.
  - destruct (Nat.ltb_spec 1 (length args / 3)) as [H|H].
    + split; [intros _; exact H|reflexivity].
    + split; [discriminate|lia].
Qed.

Lemma constDecl_specs_witness :
  length ["A"; ""; "x"; "B"; "string"; "y"] mod 3 = 0
  /\ exists decl,
       gen.ConstString sample.lib ["A"; ""; "x"; "B"; "string"; "y"] = Return decl
       /\ GenDecl_Specs decl
          = [ValueSpec [NewIdent "A"] None
               [EBasicLit {| BasicLit_Kind := STRING;
                             BasicLit_Value := dquote ++ "x" ++ dquote |}];
             ValueSpec [NewIdent "B"] (Some (EIdent (NewIdent "string")))
               [EBasicLit {| BasicLit_Kind := STRING;
                             BasicLit_Value := dquote ++ "y" ++ dquote |}]]
       /\ token.IsValid (GenDecl_Lparen decl) = true.
Proof.
  assert (length ["A"; ""; "x"; "B"; "string"; "y"] mod 3 = 0) as Hmod by reflexivity.
  split; [exact Hmod|].
  destruct (constDecl_specs sample.lib STRING _ Hmod) as (decl & Hdecl & _).
  exists decl. split; [exact Hdecl|].
  vm_compute in Hdecl. injection Hdecl as <-. split; reflexivity.
Defined.

(** ** Text lemmas *)

Lemma append_empty_r (s : string) : s ++ "" = s.
Proof.
  induction s as [|c s IH]; simpl; [reflexivity|now rewrite IH].
Qed.

Lemma length_append_one (s : string) (c : ascii) :
  String.length (s ++ String c "") = S (String.length s).
Proof.
  induction s as [|a s IH]; simpl; [reflexivity|now rewrite IH].
Qed.

Lemma drop_append (s t : string) : strings.drop (String.length s) (s ++ t) = t.
Proof.
  induction s as [|a s IH]; simpl; [now destruct t|exact IH].
Qed.

Lemma take_append (s t : string) : strings.take (String.length s) (s ++ t) = s.
Proof.
  induction s as [|a s IH]; simpl; [now destruct t|now rewrite IH].
Qed.

Lemma length_drop (n : nat) :
  forall s, String.length (strings.drop n s) = String.length s - n.
Proof.
  induction n as [|n IH]; intros s; [now rewrite Nat.sub_0_r|].
  destruct s as [|c s]; [reflexivity|]. cbn [strings.drop String.length]. apply IH.
Qed.



Lemma SplitN_space_nonempty (s : string) :
  length (strings.SplitN s " " 2) <> 0.
Proof.
  unfold strings.SplitN, strings.genSplit. simpl.
  destruct (strings.Index s " "); simpl; discriminate.
Qed.

(** ** Function.Decl: unset name and body *)

(** C2 (amended).  [Decl] fails with "function name unset" when the name is
    empty; when the name is set and the body is empty it fails with an error
    that begins "function body for " and ends " unset".  Either way the
    outcome is an error, so no declaration is produced. *)
Theorem Decl_unset (lib : golib) (fn : gen.Function) :
  (gen.name fn = "" -> gen.Decl lib fn = Err "function name unset")
  /\
  (gen.name fn <> "" -> gen.body fn = "" ->
     exists e, gen.Decl lib fn = Err e
               /\ strings.HasPrefix e "function body for " = true
               /\ strings.HasSuffix e " unset" = true).
Proof.
  split.
  - intros Hname. unfold gen.Decl. rewrite Hname. reflexivity.
  - intros Hname Hbody. unfold gen.Decl.
    destruct (String.eqb_spec (gen.name fn) "") as [E|_]; [contradiction|].
    rewrite Hbody. cbn [String.length Nat.eqb].
    eexists. split; [reflexivity|]. split; reflexivity.
Qed.

Lemma Decl_unset_witness :
  (gen.name (gen.Body sample.lib (gen.Func "") "return" []) = ""
   /\ gen.Decl sample.lib (gen.Body sample.lib (gen.Func "") "return" [])
      = Err "function name unset")
  /\
  (gen.name (gen.Args (gen.Func "F") ["x int"]) <> ""
   /\ gen.body (gen.Args (gen.Func "F") ["x int"]) = ""
   /\ exists e, gen.Decl sample.lib (gen.Args (gen.Func "F") ["x int"]) = Err e
                /\ strings.HasPrefix e "function body for " = true
                /\ strings.HasSuffix e " unset" = true).
Proof.
  split.
  - split; [reflexivity|].
    apply (proj1 (Decl_unset sample.lib _)). reflexivity.
  - assert (gen.name (gen.Args (gen.Func "F") ["x int"]) <> "") as Hname
        by (simpl; discriminate).
    split; [exact Hname|]. split; [reflexivity|].
    apply (proj2 (Decl_unset sample.lib _) Hname). reflexivity.
Defined.

(** C2 (as stated) fails: with the name set and no body the error text is
    not "function body unset", and with neither set the error is the one
    about the name. *)
Lemma Decl_unset_counterexample :
  gen.body (gen.Func "F") = ""
  /\ gen.Decl sample.lib (gen.Func "F") = Err "function body for %!s(MISSING) unset"
  /\ gen.Decl sample.lib (gen.Func "F") <> Err "function body unset"
  /\ gen.body (gen.Func "") = ""
  /\ gen.Decl sample.lib (gen.Func "") = Err "function name unset".
Proof.
  repeat split; try reflexivity. vm_compute. discriminate.
Qed.

(** ** parseBlock *)

Lemma wrapBlock_text (lib : golib) (s : string) :
  gen.wrapBlock lib s
  = "package tmp" ++ nl ++ "func _block() {" ++ nl ++ s ++ nl ++ "}".
Proof.
  reflexivity.
Qed.

(** The failure path of [parseBlock] that quotes the wrapped text: the file
    parsed, but holds no function declaration. *)
Lemma parseBlock_no_function (lib : golib) (s : string) (file : File) :
  parser_ParseFile lib (gen.wrapBlock lib s) = Ok file ->
  gen.firstFuncDecl (File_Decls file) = None ->
  gen.parseBlock lib s
  = Err ("parse error: no function found in "
           ++ strconv_Quote lib (gen.wrapBlock lib s)).
Proof.
  intros H Hnone. unfold gen.parseBlock. rewrite H, Hnone.
  unfold fmt.Errorf. cbn [fmt.Sprintf append Ascii.eqb Bool.eqb].
  unfold fmt.verb. cbn [Ascii.eqb Bool.eqb orb fmt.extra].
  now rewrite append_empty_r.
Qed.

(** C3 (amended).  When the file parser rejects the wrapped text,
    [parseBlock] returns the parser's error unchanged: it carries the
    parser's diagnostic and nothing is added to it. *)
Theorem parseBlock_errors (lib : golib) (s : string) (diag : error) :
  parser_ParseFile lib (gen.wrapBlock lib s) = Err diag ->
  gen.parseBlock lib s = Err diag.
Proof.
  intros H. unfold gen.parseBlock. now rewrite H.
Qed.

Lemma parseBlock_errors_witness :
  parser_ParseFile sample.lib (gen.wrapBlock sample.lib "x := (")
  = Err "3:1: expected statement"
  /\ gen.parseBlock sample.lib "x := (" = Err "3:1: expected statement".
Proof.
  assert (parser_ParseFile sample.lib (gen.wrapBlock sample.lib "x := (")
          = Err "3:1: expected statement") as H by reflexivity.
  split; [exact H|].
  exact (parseBlock_errors sample.lib "x := (" _ H).
Defined.

(** C3 (as stated) fails: the error returned for a rejected body is the
    parser's diagnostic, which does not contain the wrapped text. *)
Lemma parseBlock_errors_counterexample :
  parser_ParseFile sample.lib (gen.wrapBlock sample.lib "x := (")
  = Err "3:1: expected statement"
  /\ gen.parseBlock sample.lib "x := (" = Err "3:1: expected statement"
  /\ strings.Contains "3:1: expected statement"
                      (gen.wrapBlock sample.lib "x := (") = false.
Proof.
  repeat split; reflexivity.
Qed.

(** ** UTF-8: reading back what was written *)

Ltac Zify.zify_post_hook ::= Z.to_euclidean_division_equations.








Ltac Zify.zify_post_hook ::= idtac.



Lemma DecodeRune_width (s : string) :
  s <> "" -> 1 <= snd (utf8.DecodeRuneInString s).
Proof.
  intros Hs. destruct s as [|c0 s1]; [contradiction|].
  cbv beta iota zeta delta [utf8.DecodeRuneInString].
  repeat match goal with
         | |- context [if ?b then _ else _] => destruct b
         | |- context [match ?x with EmptyString => _ | String _ _ => _ end] =>
             destruct x
         end; cbn [snd]; lia.
Qed.

(** ** strings.Map, rune by rune *)

Lemma mapRunes_skip {St : Type} (mapping : St -> N -> St * N) (s : string) :
  forall skip st,
    strings.mapRunes mapping st skip s
    = strings.mapRunes mapping st 0 (strings.drop skip s).
Proof.
  induction s as [|b s IH]; intros skip st.
  - now destruct skip.
  - destruct skip as [|skip]; [reflexivity|].
    cbn [strings.mapRunes strings.drop]. apply IH.
Qed.


Lemma drop_width (b : ascii) (s : string) (width : nat) :
  1 <= width -> strings.drop (width - 1) s = strings.drop width (String b s).
Proof.
  intros H. destruct width as [|width]; [lia|].
  replace (S width - 1) with width by lia. reflexivity.
Qed.

(** One call of the closure of [Title]: the first rune of [s] is replaced
    by the encoding of its image and the rest is mapped with that rune as
    [prev]. *)
Lemma Title_step (lib : golib) (prev : N) (s : string) :
  s <> "" ->
  strings.mapRunes (strings.titleMapping lib) prev 0 s
  = utf8.EncodeRune
      (snd (strings.titleMapping lib prev (fst (utf8.DecodeRuneInString s))))
    ++ strings.mapRunes (strings.titleMapping lib)
         (fst (utf8.DecodeRuneInString s)) 0
         (strings.drop (snd (utf8.DecodeRuneInString s)) s).
Proof.
  intros Hs. pose proof (DecodeRune_width s Hs) as Hw.
  destruct s as [|b s]; [contradiction|].
  cbn [strings.mapRunes].
  destruct (utf8.DecodeRuneInString (String b s)) as [c width].
  cbn [fst snd strings.titleMapping] in *.
  now rewrite mapRunes_skip, (drop_width b s width Hw).
Qed.




(** ** Public *)




(** Names with separators whose later words already start in title case
    keep their rest; a byte that is not valid UTF-8 does not. *)
Example Public_keeps_digit_after_separator :
  gen.Public sample.lib "a-1" = NewIdent "A-1".
Proof.
  reflexivity.
Qed.

Example Public_replaces_invalid_byte :
  gen.Public sample.lib (String "a" (utf8.bytes [255%N]))
  = NewIdent (String "A" (utf8.bytes [239; 191; 189]%N)).
Proof.
  reflexivity.
Qed.

(** ** FieldList *)

(** C5.  The empty item does not reach the "empty field list item" branch:
    [strings.SplitN] yields one (empty) part for it, the parser is asked for
    the empty type expression, and the outcome is the parser's. *)
Theorem FieldList_empty_item (lib : golib) :
  gen.FieldList lib [""]
  = match parser_ParseExpr lib "" with
    | Ok typeExpr =>
        Ok {| FieldList_List := [ {| Field_Names := [];
                                     Field_Type := Some typeExpr;
                                     Field_Tag := None |} ] |}
    | Err err =>
        Err ("could not parse type in " ++ strconv_Quote lib "" ++ ": " ++ err)
    end.
Proof.
  unfold gen.FieldList. cbn [gen.fieldListLoop].
  change (strings.SplitN "" " " 2) with [""].
  cbn [length Nat.eqb Nat.sub nth Nat.ltb Nat.leb].
  destruct (parser_ParseExpr lib "") as [typeExpr|err]; [reflexivity|].
  unfold fmt.Errorf. cbn [fmt.Sprintf append Ascii.eqb Bool.eqb].
  unfold fmt.verb. cbn [Ascii.eqb Bool.eqb orb fmt.extra append].
  now rewrite append_empty_r.
Qed.

(** Every error of [FieldList] is a type-parse error: the "empty field list
    item" error is never produced. *)
Lemma fieldListLoop_error_shape (lib : golib) (fields : list string) :
  forall res e,
    gen.fieldListLoop lib fields res = Err e ->
    strings.HasPrefix e "could not parse type in " = true.
Proof.
  induction fields as [|s rest IH]; intros res e H; [discriminate|].
  cbn [gen.fieldListLoop] in H.
  destruct (Nat.eqb_spec (length (strings.SplitN s " " 2)) 0) as [E|_].
  - now apply SplitN_space_nonempty in E.
  - destruct (parser_ParseExpr lib _) as [typeExpr|err].
    + exact (IH _ _ H).
    + injection H as <-. reflexivity.
Qed.

(** ** String *)

(** A raw literal built from text without a backquote denotes that text
    with its carriage returns removed. *)
Lemma UnquoteRaw_backquoted (s : string) :
  strings.Contains s backquote = false ->
  strconv.UnquoteRaw (backquote ++ s ++ backquote) = Some (strconv.removeCR s).
Proof.
  intros H. unfold backquote. cbn [append strconv.UnquoteRaw].
  rewrite length_append_one. cbn [Nat.leb Nat.sub andb].
  rewrite Nat.sub_0_r, drop_append, take_append.
  cbn [String.eqb Ascii.eqb Bool.eqb andb].
  unfold backquote in H. now rewrite H.
Qed.

(** The text between the backquotes is the input itself. *)
Lemma String_raw_content (lib : golib) (s : string) :
  strings.Contains s dquote = true ->
  strings.Contains s backquote = false ->
  gen.String lib s
  = {| BasicLit_Kind := STRING; BasicLit_Value := backquote ++ s ++ backquote |}.
Proof.
  intros Hq Hb. unfold gen.String. now rewrite Hq, Hb.
Qed.

(** C6.  For the text made of a double quote and a carriage return,
    [String] chooses the raw form, and the literal it builds denotes the
    double quote alone: parsing the literal does not give the text back. *)
Theorem String_raw_carriage_return (lib : golib) :
  gen.String lib (dquote ++ String CR "")
  = {| BasicLit_Kind := STRING;
       BasicLit_Value := backquote ++ (dquote ++ String CR "") ++ backquote |}
  /\ strconv.UnquoteRaw (BasicLit_Value (gen.String lib (dquote ++ String CR "")))
     = Some dquote
  /\ dquote <> dquote ++ String CR "".
Proof.
  split; [reflexivity|]. split; [reflexivity|]. vm_compute. discriminate.
Qed.

Lemma FieldList_error_shape (lib : golib) (fields : list string) (e : error) :
  gen.FieldList lib fields = Err e ->
  strings.HasPrefix e "could not parse type in " = true.
Proof.
  apply fieldListLoop_error_shape.
Qed.

(** ** Function.Decl: a field group whose first descriptor is empty *)

Lemma fl_empty_first (lib : golib) (err : option error) (rest : list string) :
  gen.fl lib err ("" :: rest) = (None, err).
Proof.
  reflexivity.
Qed.

Lemma fl_nil (lib : golib) (err : option error) : gen.fl lib err [] = (None, err).
Proof.
  reflexivity.
Qed.

(** C9.  When the first argument descriptor is the empty string, [Decl]
    behaves as if there were no argument descriptors at all, whatever the
    later descriptors are: the group reports no error, and a finished
    declaration has no parameter list.  The same holds for the return
    descriptors and the result list. *)
Theorem Decl_skips_group (lib : golib) (fn : gen.Function) (rest : list string) :
  (gen.args fn = "" :: rest ->
     gen.Decl lib fn = gen.Decl lib (gen.Args fn [])
     /\ forall d, gen.Decl lib fn = Ok d ->
                  FuncType_Params (FuncDecl_Type d) = None)
  /\
  (gen.returns fn = "" :: rest ->
     gen.Decl lib fn = gen.Decl lib (gen.Returns fn [])
     /\ forall d, gen.Decl lib fn = Ok d ->
                  FuncType_Results (FuncDecl_Type d) = None).
Proof.
  split; intros H.
  - assert (gen.Decl lib fn = gen.Decl lib (gen.Args fn [])) as E.
    { unfold gen.Decl, gen.Args. cbn [gen.name gen.body gen.godoc gen.args
                                          gen.returns gen.receiver].
      rewrite H. now rewrite fl_empty_first, fl_nil. }
    split; [exact E|].
    intros d. rewrite E. unfold gen.Decl, gen.Args.
    cbn [gen.name gen.body gen.godoc gen.args gen.returns gen.receiver].
    rewrite fl_nil.
    split_decl; intros Hd; try discriminate; injection Hd as <-; reflexivity.
  - assert (gen.Decl lib fn = gen.Decl lib (gen.Returns fn [])) as E.
    { unfold gen.Decl, gen.Returns. cbn [gen.name gen.body gen.godoc gen.args
                                             gen.returns gen.receiver].
      rewrite H.
      destruct (gen.fl lib None (gen.args fn)) as [a e].
      now rewrite fl_empty_first, fl_nil. }
    split; [exact E|].
    intros d. rewrite E. unfold gen.Decl, gen.Returns.
    cbn [gen.name gen.body gen.godoc gen.args gen.returns gen.receiver].
    destruct (gen.fl lib None (gen.args fn)) as [a e].
    rewrite fl_nil.
    split_decl; intros Hd; try discriminate; injection Hd as <-; reflexivity.
Qed.

Lemma Decl_skips_group_witness :
  (gen.args (gen.Body sample.lib (gen.Args (gen.Func "F") [""; "x int"; "?? ??"])
                      "return %s" ["x"])
   = [""; "x int"; "?? ??"]
   /\ exists d,
       gen.Decl sample.lib
         (gen.Body sample.lib (gen.Args (gen.Func "F") [""; "x int"; "?? ??"])
                   "return %s" ["x"]) = Ok d
       /\ FuncType_Params (FuncDecl_Type d) = None)
  /\
  (gen.returns (gen.Body sample.lib (gen.Returns (gen.Func "F") [""; "?? ??"])
                         "return" [])
   = [""; "?? ??"]
   /\ exists d,
       gen.Decl sample.lib
         (gen.Body sample.lib (gen.Returns (gen.Func "F") [""; "?? ??"])
                   "return" []) = Ok d
       /\ FuncType_Results (FuncDecl_Type d) = None).
Proof.
  split.
  - split; [reflexivity|].
    pose (fn := gen.Body sample.lib (gen.Args (gen.Func "F") [""; "x int"; "?? ??"])
                         "return %s" ["x"]).
    destruct (gen.Decl sample.lib fn) as [d|e] eqn:E; [|vm_compute in E; discriminate].
    exists d. split; [exact E|].
    exact (proj2 (proj1 (Decl_skips_group sample.lib fn ["x int"; "?? ??"]) eq_refl) d E).
  - split; [reflexivity|].
    pose (fn := gen.Body sample.lib (gen.Returns (gen.Func "F") [""; "?? ??"])
                         "return" []).
    destruct (gen.Decl sample.lib fn) as [d|e] eqn:E; [|vm_compute in E; discriminate].
    exists d. split; [exact E|].
    exact (proj2 (proj2 (Decl_skips_group sample.lib fn ["?? ??"]) eq_refl) d E).
Defined.

(** The same descriptors reported as an error when they do not follow an
    empty first descriptor. *)
Example Decl_reports_unparseable_argument :
  gen.Decl sample.lib
    (gen.Body sample.lib (gen.Args (gen.Func "F") ["x int"; "?? ??"])
              "return %s" ["x"])
  = Err ("could not parse type in " ++ dquote ++ "?? ??" ++ dquote
           ++ ": 1:1: expected operand").
Proof.
  reflexivity.
Qed.

(** ** TagKey *)

(** C10.  For a field that carries a tag, [TagKey] returns the empty string
    for every key, whatever the tag holds and whatever the tag reader would
    answer. *)
Theorem TagKey_tag_present (lib : golib) (field : Field) (key : string) :
  Field_Tag field <> None ->
  gen.TagKey lib field key = Return "".
Proof.
  intros H. unfold gen.TagKey.
  destruct (Field_Tag field); [reflexivity|contradiction].
Qed.

Lemma TagKey_tag_present_witness :
  Field_Tag {| Field_Names := [NewIdent "Name"];
               Field_Type := Some (gen.SimpleType "string");
               Field_Tag := Some {| BasicLit_Kind := STRING;
                                    BasicLit_Value := "xml:" ++ dquote ++ "name" ++ dquote |} |}
  <> None
  /\ gen.TagKey sample.lib
       {| Field_Names := [NewIdent "Name"];
          Field_Type := Some (gen.SimpleType "string");
          Field_Tag := Some {| BasicLit_Kind := STRING;
                               BasicLit_Value := "xml:" ++ dquote ++ "name" ++ dquote |} |}
       "xml"
     = Return ""
  /\ reflect_StructTag_Get sample.lib ("xml:" ++ dquote ++ "name" ++ dquote) "xml"
     = "name".
Proof.
  match goal with
  | |- ?A /\ _ => assert A as H by (simpl; discriminate)
  end.
  split; [exact H|]. split; [|reflexivity].
  exact (TagKey_tag_present sample.lib _ "xml" H).
Defined.

(** C1.  On a field without a tag, [TagKey] dereferences the nil tag and
    panics; it returns no text at all, for every key and every tag
    reader. *)
Theorem TagKey_no_tag (lib : golib) (field : Field) (key : string) :
  Field_Tag field = None ->
  gen.TagKey lib field key = Panic nilDeref
  /\ forall text, gen.TagKey lib field key <> Return text.
Proof.
  intros H. unfold gen.TagKey. rewrite H. cbn [deref bindP].
  split; [reflexivity|]. intros text. discriminate.
Qed.

Lemma TagKey_no_tag_witness :
  Field_Tag {| Field_Names := [NewIdent "Name"];
               Field_Type := Some (gen.SimpleType "string");
               Field_Tag := None |} = None
  /\ gen.TagKey sample.lib
       {| Field_Names := [NewIdent "Name"];
          Field_Type := Some (gen.SimpleType "string");
          Field_Tag := None |} "xml"
     = Panic nilDeref.
Proof.
  split; [reflexivity|].
  apply (TagKey_no_tag sample.lib). reflexivity.
Defined.

(** ** The examples of the package's intended use *)

Example FieldList_named_and_anonymous :
  gen.FieldList sample.lib ["x int"; "string"]
  = Ok {| FieldList_List :=
            [ {| Field_Names := [NewIdent "x"];
                 Field_Type := Some (gen.SimpleType "int");
                 Field_Tag := None |};
              {| Field_Names := [];
                 Field_Type := Some (gen.SimpleType "string");
                 Field_Tag := None |} ] |}.
Proof.
  reflexivity.
Qed.

Example FieldList_of_nothing (lib : golib) :
  gen.FieldList lib [] = Ok {| FieldList_List := [] |}.
Proof.
  reflexivity.
Qed.

Example Decl_complete_function :
  gen.Decl sample.lib
    (gen.Body sample.lib
       (gen.Returns (gen.Args (gen.Func "F") ["x int"]) ["int"]) "return x" [])
  = Ok {| FuncDecl_Doc := None;
          FuncDecl_Recv := None;
          FuncDecl_Name := NewIdent "F";
          FuncDecl_Type :=
            {| FuncType_Params :=
                 Some {| FieldList_List :=
                           [ {| Field_Names := [NewIdent "x"];
                                Field_Type := Some (gen.SimpleType "int");
                                Field_Tag := None |} ] |};
               FuncType_Results :=
                 Some {| FieldList_List :=
                           [ {| Field_Names := [];
                                Field_Type := Some (gen.SimpleType "int");
                                Field_Tag := None |} ] |} |};
          FuncDecl_Body :=
            Some {| BlockStmt_List := [ReturnStmt [gen.SimpleType "x"]] |} |}.
Proof.
  reflexivity.
Qed.

(** * Further properties of the package *)

(** ** Cutting text *)

Lemma SplitN_space (s : string) :
  strings.SplitN s " " 2
  = match strings.Index s " " with
    | Some m => [strings.take m s; strings.drop (m + 1) s]
    | None => [s]
    end.
Proof.
  unfold strings.SplitN, strings.genSplit.
  cbn [String.eqb Ascii.eqb Bool.eqb Nat.sub strings.splitLoop String.length].
  destruct (strings.Index s " "); reflexivity.
Qed.

Lemma Errorf_could_not_parse (lib : golib) (s err : string) :
  fmt.Errorf lib "could not parse type in %q: %v" [s; err]
  = "could not parse type in " ++ strconv_Quote lib s ++ ": " ++ err.
Proof.
  unfold fmt.Errorf. cbn [fmt.Sprintf append Ascii.eqb Bool.eqb].
  unfold fmt.verb. cbn [Ascii.eqb Bool.eqb orb fmt.extra append].
  now rewrite append_empty_r.
Qed.

(** ** FieldList, item by item *)

Lemma fieldListLoop_step (lib : golib) (s : string) (rest : list string)
      (res : list Field) :
  gen.fieldListLoop lib (s :: rest) res
  = match parser_ParseExpr lib (descr.typeText s) with
    | Ok typeExpr => gen.fieldListLoop lib rest (res ++ [descr.fieldOf s typeExpr])
    | Err err =>
        Err ("could not parse type in " ++ strconv_Quote lib s ++ ": " ++ err)
    end.
Proof.
  cbn [gen.fieldListLoop]. rewrite SplitN_space.
  unfold descr.typeText, descr.fieldOf, descr.names.
  destruct (strings.Index s " ") as [m|];
    cbn [length Nat.eqb Nat.sub nth Nat.ltb Nat.leb];
    destruct (parser_ParseExpr lib _) as [typeExpr|err];
    try reflexivity; apply f_equal, Errorf_could_not_parse.
Qed.

Lemma fieldListLoop_fields (lib : golib) (fields : list string) :
  forall res list,
    gen.fieldListLoop lib fields res = Ok list ->
    exists fs,
      FieldList_List list = (res ++ fs)%list
      /\ Forall2 (fun s f => exists typeExpr,
                      parser_ParseExpr lib (descr.typeText s) = Ok typeExpr
                      /\ f = descr.fieldOf s typeExpr) fields fs.
Proof.
  induction fields as [|s rest IH]; intros res list H.
  - injection H as <-. exists []. split; [now rewrite app_nil_r|constructor].
  - rewrite fieldListLoop_step in H.
    destruct (parser_ParseExpr lib (descr.typeText s)) as [typeExpr|err] eqn:E;
      [|discriminate].
    destruct (IH _ _ H) as (fs & Hlist & Hall).
    exists (descr.fieldOf s typeExpr :: fs). split.
    + now rewrite Hlist, <- app_assoc.
    + constructor; [now exists typeExpr|exact Hall].
Qed.

(** X1.  When [FieldList] succeeds, its list has one field per descriptor,
    in input order: the field's type is the parse of the text after the
    descriptor's first space (the whole descriptor when there is none), its
    only name is the text before that space (no name when there is none),
    and it has no tag. *)
Theorem FieldList_fields (lib : golib) (fields : list string) (list : FieldList) :
  gen.FieldList lib fields = Ok list ->
  Forall2 (fun s f => exists typeExpr,
               parser_ParseExpr lib (descr.typeText s) = Ok typeExpr
               /\ f = descr.fieldOf s typeExpr)
          fields (FieldList_List list).
Proof.
  intros H. destruct (fieldListLoop_fields lib fields [] list H) as (fs & Hlist & Hall).
  now rewrite Hlist.
Qed.

Lemma FieldList_fields_witness :
  gen.FieldList sample.lib ["r *Reader"; "n int"; "error"]
  = Ok {| FieldList_List :=
            [descr.fieldOf "r *Reader" (EStar (gen.SimpleType "Reader"));
             descr.fieldOf "n int" (gen.SimpleType "int");
             descr.fieldOf "error" (gen.SimpleType "error")] |}
  /\ Forall2 (fun s f => exists typeExpr,
                 parser_ParseExpr sample.lib (descr.typeText s) = Ok typeExpr
                 /\ f = descr.fieldOf s typeExpr)
             ["r *Reader"; "n int"; "error"]
             [descr.fieldOf "r *Reader" (EStar (gen.SimpleType "Reader"));
              descr.fieldOf "n int" (gen.SimpleType "int");
              descr.fieldOf "error" (gen.SimpleType "error")].
Proof.
  assert (gen.FieldList sample.lib ["r *Reader"; "n int"; "error"]
          = Ok {| FieldList_List :=
                    [descr.fieldOf "r *Reader" (EStar (gen.SimpleType "Reader"));
                     descr.fieldOf "n int" (gen.SimpleType "int");
                     descr.fieldOf "error" (gen.SimpleType "error")] |}) as H
      by reflexivity.
  split; [exact H|].
  exact (FieldList_fields sample.lib _ _ H).
Defined.

Lemma fieldListLoop_first_error (lib : golib) (fields : list string) :
  forall res e,
    gen.fieldListLoop lib fields res = Err e ->
    exists before s after diag,
      fields = (before ++ s :: after)%list
      /\ Forall (descr.parses lib) before
      /\ parser_ParseExpr lib (descr.typeText s) = Err diag
      /\ e = "could not parse type in " ++ strconv_Quote lib s ++ ": " ++ diag.
Proof.
  induction fields as [|s rest IH]; intros res e H; [discriminate|].
  rewrite fieldListLoop_step in H.
  destruct (parser_ParseExpr lib (descr.typeText s)) as [typeExpr|err] eqn:E.
  - destruct (IH _ _ H) as (before & s' & after & diag & -> & Hb & Hs & He).
    exists (s :: before), s', after, diag.
    repeat split; try assumption.
    constructor; [now exists typeExpr|exact Hb].
  - injection H as <-. exists [], s, rest, err.
    repeat split; [constructor|exact E].
Qed.

(** X2.  When [FieldList] fails, the error is about the first descriptor
    whose type text the parser rejects: it reads "could not parse type in",
    the quoted descriptor, and the parser's diagnostic.  The descriptors
    before it parse, and those after it are not looked at. *)
Theorem FieldList_first_error (lib : golib) (fields : list string) (e : error) :
  gen.FieldList lib fields = Err e ->
  exists before s after diag,
    fields = (before ++ s :: after)%list
    /\ Forall (descr.parses lib) before
    /\ parser_ParseExpr lib (descr.typeText s) = Err diag
    /\ e = "could not parse type in " ++ strconv_Quote lib s ++ ": " ++ diag.
Proof.
  apply fieldListLoop_first_error.
Qed.

Lemma FieldList_first_error_witness :
  gen.FieldList sample.lib ["x int"; "y ?"; "z !"]
  = Err ("could not parse type in " ++ dquote ++ "y ?" ++ dquote
           ++ ": 1:1: expected operand")
  /\ exists before s after diag,
       ["x int"; "y ?"; "z !"] = (before ++ s :: after)%list
       /\ Forall (descr.parses sample.lib) before
       /\ parser_ParseExpr sample.lib (descr.typeText s) = Err diag
       /\ "could not parse type in " ++ dquote ++ "y ?" ++ dquote
            ++ ": 1:1: expected operand"
          = "could not parse type in " ++ strconv_Quote sample.lib s ++ ": " ++ diag.
Proof.
  assert (gen.FieldList sample.lib ["x int"; "y ?"; "z !"]
          = Err ("could not parse type in " ++ dquote ++ "y ?" ++ dquote
                   ++ ": 1:1: expected operand")) as H by reflexivity.
  split; [exact H|].
  exact (FieldList_first_error sample.lib _ _ H).
Defined.

Lemma fieldListLoop_succeeds (lib : golib) (fields : list string) :
  Forall (descr.parses lib) fields ->
  forall res, exists list, gen.fieldListLoop lib fields res = Ok list.
Proof.
  induction 1 as [|s rest [typeExpr Hs] _ IH]; intros res.
  - eexists. reflexivity.
  - rewrite fieldListLoop_step, Hs. apply IH.
Qed.

(** X3.  [FieldList] succeeds exactly when the parser accepts the type
    text of every descriptor; in particular the empty list of descriptors
    always succeeds. *)
Theorem FieldList_succeeds_iff (lib : golib) (fields : list string) :
  (exists list, gen.FieldList lib fields = Ok list)
  <-> Forall (descr.parses lib) fields.
Proof.
  split.
  - intros [list H].
    destruct (fieldListLoop_fields lib fields [] list H) as (fs & _ & Hall).
    clear H.
    induction Hall as [|s f ss fs' (typeExpr & Hs & _) _ IH]; [constructor|].
    constructor; [now exists typeExpr|exact IH].
  - intros H. apply (fieldListLoop_succeeds lib fields H).
Qed.

Lemma FieldList_succeeds_iff_witness :
  Forall (descr.parses sample.lib) ["x int"; "*T"]
  /\ exists list, gen.FieldList sample.lib ["x int"; "*T"] = Ok list.
Proof.
  assert (Forall (descr.parses sample.lib) ["x int"; "*T"]) as H.
  { repeat constructor; eexists; reflexivity. }
  split; [exact H|].
  exact (proj2 (FieldList_succeeds_iff sample.lib _) H).
Defined.

(** ** Function.Decl, group by group *)

Lemma length_zero_empty (s : string) : String.length s = 0 -> s = "".
Proof.
  destruct s; [reflexivity|discriminate].
Qed.

Lemma fl_group (lib : golib) (items : list string) :
  gen.fl lib None items
  = match descr.group lib items with
    | Ok list => (list, None)
    | Err e => (None, Some e)
    end.
Proof.
  destruct items as [|a0 rest]; [reflexivity|].
  unfold gen.fl, descr.group.
  destruct a0 as [|c a0]; [reflexivity|].
  cbn [String.length Nat.eqb String.eqb].
  destruct (gen.FieldList lib _); reflexivity.
Qed.

Lemma fl_after_error (lib : golib) (e : error) (items : list string) :
  gen.fl lib (Some e) items = (None, Some e).
Proof.
  destruct items as [|a0 rest]; [reflexivity|].
  unfold gen.fl. destruct (Nat.eqb (String.length a0) 0); reflexivity.
Qed.

Lemma Errorf_body (lib : golib) (name e : string) :
  fmt.Errorf lib "could not parse function body of %s: %v" [name; e]
  = "could not parse function body of " ++ name ++ ": " ++ e.
Proof.
  unfold fmt.Errorf. cbn [fmt.Sprintf append Ascii.eqb Bool.eqb].
  unfold fmt.verb. cbn [Ascii.eqb Bool.eqb orb fmt.extra append].
  now rewrite append_empty_r.
Qed.

(** [Decl] as a sequence of steps, each of which may stop the build. *)
Lemma Decl_steps (lib : golib) (fn : gen.Function) :
  gen.name fn <> "" -> gen.body fn <> "" ->
  gen.Decl lib fn
  = match descr.group lib (gen.args fn) with
    | Err e => Err e
    | Ok args_ =>
        match descr.group lib (gen.returns fn) with
        | Err e => Err e
        | Ok returns_ =>
            match descr.group lib [gen.receiver fn] with
            | Err e => Err e
            | Ok receiver_ =>
                match gen.parseBlock lib (gen.body fn) with
                | Err e =>
                    Err ("could not parse function body of "
                           ++ gen.name fn ++ ": " ++ e)
                | Ok body_ =>
                    Ok {| FuncDecl_Doc :=
                            if negb (String.eqb (gen.godoc fn) "") then
                              Some {| CommentGroup_List :=
                                        map (fun line => {| Comment_Text := line |})
                                            (strings.Split (gen.godoc fn) nl) |}
                            else None;
                          FuncDecl_Recv := receiver_;
                          FuncDecl_Name := NewIdent (gen.name fn);
                          FuncDecl_Type := {| FuncType_Params := args_;
                                              FuncType_Results := returns_ |};
                          FuncDecl_Body := body_ |}
                end
            end
        end
    end.
Proof.
  intros Hname Hbody. unfold gen.Decl.
  destruct (String.eqb_spec (gen.name fn) "") as [E|_]; [contradiction|].
  destruct (Nat.eqb_spec (String.length (gen.body fn)) 0) as [E|_];
    [now apply length_zero_empty in E|].
  rewrite fl_group.
  destruct (descr.group lib (gen.args fn)) as [args_|e].
  - rewrite fl_group.
    destruct (descr.group lib (gen.returns fn)) as [returns_|e].
    + rewrite fl_group.
      destruct (descr.group lib [gen.receiver fn]) as [receiver_|e]; [|reflexivity].
      destruct (gen.parseBlock lib (gen.body fn)) as [body_|e]; [reflexivity|].
      now rewrite Errorf_body.
    + now rewrite fl_after_error.
  - now rewrite !fl_after_error.
Qed.

(** X4.  With name and body set, [Decl] stops at the first failure, in the
    order arguments, returns, receiver, body: a group's error is returned
    as it is and nothing after that group matters; a body that does not
    parse is reported as "could not parse function body of <name>: <error>". *)
Theorem Decl_first_failure (lib : golib) (fn : gen.Function) :
  gen.name fn <> "" -> gen.body fn <> "" ->
  (forall e,
      descr.group lib (gen.args fn) = Err e -> gen.Decl lib fn = Err e)
  /\
  (forall args_ e,
      descr.group lib (gen.args fn) = Ok args_ ->
      descr.group lib (gen.returns fn) = Err e -> gen.Decl lib fn = Err e)
  /\
  (forall args_ returns_ e,
      descr.group lib (gen.args fn) = Ok args_ ->
      descr.group lib (gen.returns fn) = Ok returns_ ->
      descr.group lib [gen.receiver fn] = Err e -> gen.Decl lib fn = Err e)
  /\
  (forall args_ returns_ receiver_ e,
      descr.group lib (gen.args fn) = Ok args_ ->
      descr.group lib (gen.returns fn) = Ok returns_ ->
      descr.group lib [gen.receiver fn] = Ok receiver_ ->
      gen.parseBlock lib (gen.body fn) = Err e ->
      gen.Decl lib fn
      = Err ("could not parse function body of " ++ gen.name fn ++ ": " ++ e)).
Proof.
  intros Hname Hbody. rewrite (Decl_steps lib fn Hname Hbody).
  repeat split; intros.
  - now rewrite H.
  - now rewrite H, H0.
  - now rewrite H, H0, H1.
  - now rewrite H, H0, H1, H2.
Qed.

Lemma Decl_first_failure_witness :
  (gen.Decl sample.lib
     (gen.Body sample.lib
        (gen.Receiver (gen.Returns (gen.Args (gen.Func "F") ["x int"]) ["?"]) "r !")
        "x := (" [])
   = Err ("could not parse type in " ++ dquote ++ "?" ++ dquote
            ++ ": 1:1: expected operand"))
  /\
  (gen.Decl sample.lib
     (gen.Body sample.lib (gen.Args (gen.Func "F") ["x int"]) "x := (" [])
   = Err "could not parse function body of F: 3:1: expected statement").
Proof.
  split.
  - pose (fn := gen.Body sample.lib
                  (gen.Receiver (gen.Returns (gen.Args (gen.Func "F") ["x int"]) ["?"])
                                "r !") "x := (" []).
    assert (gen.name fn <> "") as Hname by (vm_compute; discriminate).
    assert (gen.body fn <> "") as Hbody by (vm_compute; discriminate).
    destruct (Decl_first_failure sample.lib fn Hname Hbody) as (_ & H & _).
    refine (H (Some {| FieldList_List := [descr.fieldOf "x int" (gen.SimpleType "int")] |})
              _ _ _); reflexivity.
  - pose (fn := gen.Body sample.lib (gen.Args (gen.Func "F") ["x int"]) "x := (" []).
    assert (gen.name fn <> "") as Hname by (vm_compute; discriminate).
    assert (gen.body fn <> "") as Hbody by (vm_compute; discriminate).
    destruct (Decl_first_failure sample.lib fn Hname Hbody) as (_ & _ & _ & H).
    refine (H (Some {| FieldList_List := [descr.fieldOf "x int" (gen.SimpleType "int")] |})
              None None _ _ _ _ _); reflexivity.
Defined.

Lemma Decl_set (lib : golib) (fn : gen.Function) (d : FuncDecl) :
  gen.Decl lib fn = Ok d -> gen.name fn <> "" /\ gen.body fn <> "".
Proof.
  intros H. split; intros E; unfold gen.Decl in H; rewrite E in H.
  - discriminate.
  - destruct (String.eqb (gen.name fn) ""); discriminate.
Qed.

(** X5.  When [Decl] succeeds, name and body were set, the declaration
    carries the builder's name, its parameter, result and receiver lists are
    the parsed argument, return and receiver groups, and its body is the
    parsed body text. *)
Theorem Decl_success (lib : golib) (fn : gen.Function) (d : FuncDecl) :
  gen.Decl lib fn = Ok d ->
  gen.name fn <> "" /\ gen.body fn <> ""
  /\ FuncDecl_Name d = NewIdent (gen.name fn)
  /\ descr.group lib (gen.args fn) = Ok (FuncType_Params (FuncDecl_Type d))
  /\ descr.group lib (gen.returns fn) = Ok (FuncType_Results (FuncDecl_Type d))
  /\ descr.group lib [gen.receiver fn] = Ok (FuncDecl_Recv d)
  /\ gen.parseBlock lib (gen.body fn) = Ok (FuncDecl_Body d).
Proof.
  intros H.
  destruct (Decl_set lib fn d H) as [Hname Hbody].
  split; [exact Hname|]. split; [exact Hbody|].
  rewrite (Decl_steps lib fn Hname Hbody) in H.
  destruct (descr.group lib (gen.args fn)) as [args_|e]; [|discriminate].
  destruct (descr.group lib (gen.returns fn)) as [returns_|e]; [|discriminate].
  destruct (descr.group lib [gen.receiver fn]) as [receiver_|e]; [|discriminate].
  destruct (gen.parseBlock lib (gen.body fn)) as [body_|e]; [|discriminate].
  injection H as <-. repeat split.
Qed.

Lemma Decl_success_witness :
  exists d,
    gen.Decl sample.lib
      (gen.Body sample.lib
         (gen.Receiver (gen.Returns (gen.Args (gen.Func "Get") ["k string"]) ["int"])
                       "m *Map") "return n" []) = Ok d
    /\ FuncDecl_Name d = NewIdent "Get"
    /\ FuncDecl_Recv d
       = Some {| FieldList_List := [descr.fieldOf "m *Map" (EStar (gen.SimpleType "Map"))] |}.
Proof.
  pose (fn := gen.Body sample.lib
                (gen.Receiver (gen.Returns (gen.Args (gen.Func "Get") ["k string"]) ["int"])
                              "m *Map") "return n" []).
  destruct (gen.Decl sample.lib fn) as [d|e] eqn:E; [|vm_compute in E; discriminate].
  exists d. split; [exact E|].
  destruct (Decl_success sample.lib fn d E) as (_ & _ & Hn & _ & _ & Hr & _).
  split; [exact Hn|].
  assert (descr.group sample.lib [gen.receiver fn]
          = Ok (Some {| FieldList_List :=
                          [descr.fieldOf "m *Map" (EStar (gen.SimpleType "Map"))] |}))
    as G by reflexivity.
  rewrite G in Hr. injection Hr as Hr. symmetry. exact Hr.
Defined.

Lemma group_length (lib : golib) (items : list string) (list : FieldList) :
  descr.group lib items = Ok (Some list) ->
  length (FieldList_List list) = length items.
Proof.
  unfold descr.group. intros H.
  destruct items as [|a0 rest]; [discriminate|].
  destruct (String.eqb a0 ""); [discriminate|].
  destruct (gen.FieldList lib (a0 :: rest)) as [l|e] eqn:E; [|discriminate].
  injection H as ->.
  destruct (fieldListLoop_fields lib _ [] _ E) as (fs & Hlist & Hall).
  rewrite Hlist. symmetry. exact (Forall2_length Hall).
Qed.

(** X6.  In a finished declaration the parameter list, when present, has
    exactly one field per argument descriptor, the result list one field per
    return descriptor, and the receiver list exactly one field. *)
Theorem Decl_field_counts (lib : golib) (fn : gen.Function) (d : FuncDecl) :
  gen.Decl lib fn = Ok d ->
  (forall list, FuncType_Params (FuncDecl_Type d) = Some list ->
                length (FieldList_List list) = length (gen.args fn))
  /\ (forall list, FuncType_Results (FuncDecl_Type d) = Some list ->
                   length (FieldList_List list) = length (gen.returns fn))
  /\ (forall list, FuncDecl_Recv d = Some list ->
                   length (FieldList_List list) = 1).
Proof.
  intros H.
  destruct (Decl_set lib fn d H) as [Hname Hbody].
  rewrite (Decl_steps lib fn Hname Hbody) in H.
  destruct (descr.group lib (gen.args fn)) as [args_|e] eqn:Ha; [|discriminate].
  destruct (descr.group lib (gen.returns fn)) as [returns_|e] eqn:Hr; [|discriminate].
  destruct (descr.group lib [gen.receiver fn]) as [receiver_|e] eqn:Hc; [|discriminate].
  destruct (gen.parseBlock lib (gen.body fn)) as [body_|e]; [|discriminate].
  injection H as <-.
  cbn [FuncDecl_Type FuncType_Params FuncType_Results FuncDecl_Recv].
  repeat split; intros list E; subst.
  - exact (group_length lib _ _ Ha).
  - exact (group_length lib _ _ Hr).
  - exact (group_length lib _ _ Hc).
Qed.

Lemma Decl_field_counts_witness :
  exists d,
    gen.Decl sample.lib
      (gen.Body sample.lib
         (gen.Receiver (gen.Args (gen.Func "Put") ["k string"; "v int"]) "m *Map")
         "return" []) = Ok d
    /\ (forall list, FuncType_Params (FuncDecl_Type d) = Some list ->
                     length (FieldList_List list) = 2)
    /\ (forall list, FuncDecl_Recv d = Some list ->
                     length (FieldList_List list) = 1).
Proof.
  pose (fn := gen.Body sample.lib
                (gen.Receiver (gen.Args (gen.Func "Put") ["k string"; "v int"]) "m *Map")
                "return" []).
  destruct (gen.Decl sample.lib fn) as [d|e] eqn:E; [|vm_compute in E; discriminate].
  exists d. split; [exact E|].
  destruct (Decl_field_counts sample.lib fn d E) as (Ha & _ & Hc).
  split; [exact Ha|exact Hc].
Defined.

(** ** Splitting at a separator *)

Lemma HasPrefix_split (p : string) :
  forall s, strings.HasPrefix s p = true -> s = p ++ strings.drop (String.length p) s.
Proof.
  induction p as [|a p IH]; intros s H; [reflexivity|].
  destruct s as [|c s]; [discriminate|].
  cbn [strings.HasPrefix] in H. apply andb_prop in H. destruct H as [Hc Hs].
  apply Ascii.eqb_eq in Hc. subst c.
  cbn [String.length strings.drop append]. f_equal. now apply IH.
Qed.

Lemma HasPrefix_take (p : string) :
  forall n s, strings.HasPrefix (strings.take n s) p = true ->
              strings.HasPrefix s p = true.
Proof.
  induction p as [|a p IH]; intros n s H; [reflexivity|].
  destruct n as [|n]; [discriminate|].
  destruct s as [|c s]; [discriminate|].
  cbn [strings.take strings.HasPrefix] in *.
  apply andb_prop in H. destruct H as [Hc Hs].
  rewrite Hc. cbn [andb]. exact (IH n s Hs).
Qed.

Lemma Index_unfold (s substr : string) :
  strings.Index s substr
  = if strings.HasPrefix s substr then Some 0
    else match s with
         | EmptyString => None
         | String _ s' => option_map S (strings.Index s' substr)
         end.
Proof.
  destruct s; reflexivity.
Qed.

Lemma Index_split (sep : string) :
  forall s m, strings.Index s sep = Some m ->
              s = strings.take m s ++ sep ++ strings.drop (m + String.length sep) s.
Proof.
  induction s as [|c s IH]; intros m H; rewrite Index_unfold in H.
  - destruct (strings.HasPrefix "" sep) eqn:E; [|discriminate].
    injection H as <-. exact (HasPrefix_split sep "" E).
  - destruct (strings.HasPrefix (String c s) sep) eqn:E.
    + injection H as <-. exact (HasPrefix_split sep _ E).
    + destruct (strings.Index s sep) as [m'|] eqn:Em; [|discriminate].
      injection H as <-.
      cbn [strings.take strings.drop Nat.add append]. f_equal. now apply IH.
Qed.

Lemma Index_take_none (sep : string) :
  sep <> "" ->
  forall s m, strings.Index s sep = Some m ->
              strings.Index (strings.take m s) sep = None.
Proof.
  intros Hsep.
  assert (strings.HasPrefix "" sep = false) as Hempty
      by (destruct sep; [contradiction|reflexivity]).
  induction s as [|c s IH]; intros m H; rewrite Index_unfold in H.
  - rewrite Hempty in H. discriminate.
  - destruct (strings.HasPrefix (String c s) sep) eqn:E.
    + injection H as <-. cbn [strings.take]. rewrite Index_unfold. now rewrite Hempty.
    + destruct (strings.Index s sep) as [m'|] eqn:Em; [|discriminate].
      injection H as <-. cbn [strings.take]. rewrite Index_unfold.
      destruct (strings.HasPrefix (String c (strings.take m' s)) sep) eqn:E'.
      * apply (HasPrefix_take sep (S m') (String c s)) in E'. congruence.
      * now rewrite (IH m' eq_refl).
Qed.

Lemma splitLoop_nonempty (splits : nat) (s sep : string) :
  strings.splitLoop splits s sep <> [].
Proof.
  destruct splits; cbn [strings.splitLoop]; [discriminate|].
  destruct (strings.Index s sep); discriminate.
Qed.

Lemma Join_cons (a : string) (rest : list string) (sep : string) :
  rest <> [] -> descr.Join (a :: rest) sep = a ++ sep ++ descr.Join rest sep.
Proof.
  destruct rest; [contradiction|reflexivity].
Qed.

Lemma splitLoop_Join (sep : string) (splits : nat) :
  forall s, descr.Join (strings.splitLoop splits s sep) sep = s.
Proof.
  induction splits as [|splits IH]; intros s; cbn [strings.splitLoop]; [reflexivity|].
  destruct (strings.Index s sep) as [m|] eqn:E; [|reflexivity].
  rewrite Join_cons by apply splitLoop_nonempty.
  rewrite IH. symmetry. exact (Index_split sep s m E).
Qed.

Lemma countLoop_pieces (sep : string) :
  sep <> "" ->
  forall rounds s,
    String.length s <= rounds ->
    Forall (fun piece => strings.Index piece sep = None)
           (strings.splitLoop (strings.countLoop rounds s sep) s sep).
Proof.
  intros Hsep.
  assert (1 <= String.length sep) as Hlen
      by (destruct sep; [contradiction|cbn [String.length]; lia]).
  induction rounds as [|rounds IH]; intros s Hs.
  - destruct s; [|cbn [String.length] in Hs; lia].
    cbn [strings.countLoop strings.splitLoop]. constructor; [|constructor].
    rewrite Index_unfold. destruct sep; [contradiction|reflexivity].
  - cbn [strings.countLoop].
    destruct (strings.Index s sep) as [i|] eqn:E.
    + cbn [strings.splitLoop]. rewrite E. constructor.
      * exact (Index_take_none sep Hsep s i E).
      * apply IH. rewrite length_drop. lia.
    + cbn [strings.splitLoop]. constructor; [exact E|constructor].
Qed.

Lemma Split_newline (s : string) :
  descr.Join (strings.Split s nl) nl = s
  /\ Forall (fun line => strings.Contains line nl = false) (strings.Split s nl).
Proof.
  unfold strings.Split, strings.genSplit, strings.Count, nl.
  cbn [String.eqb Ascii.eqb Bool.eqb LF].
  replace (strings.countLoop (String.length s) s (String LF "") + 1 - 1)
    with (strings.countLoop (String.length s) s (String LF "")) by lia.
  split; [apply splitLoop_Join|].
  assert (String LF "" <> "") as Hsep by discriminate.
  pose proof (countLoop_pieces (String LF "") Hsep (String.length s) s (Nat.le_refl _)) as H.
  eapply Forall_impl; [|exact H].
  intros line Hl. unfold strings.Contains. now rewrite Hl.
Qed.

(** X7.  A finished declaration has no doc comment exactly when the godoc
    text is empty.  Otherwise its comment group holds the lines of the godoc
    text: no comment contains a newline, and the comments joined by newlines
    give the godoc text back, unchanged (comment markers are neither added
    nor removed). *)
Theorem Decl_doc_lines (lib : golib) (fn : gen.Function) (d : FuncDecl) :
  gen.Decl lib fn = Ok d ->
  (gen.godoc fn = "" -> FuncDecl_Doc d = None)
  /\
  (gen.godoc fn <> "" ->
     exists comments,
       FuncDecl_Doc d = Some comments
       /\ descr.Join (map Comment_Text (CommentGroup_List comments)) nl = gen.godoc fn
       /\ Forall (fun c => strings.Contains (Comment_Text c) nl = false)
                 (CommentGroup_List comments)).
Proof.
  intros H.
  destruct (Decl_set lib fn d H) as [Hname Hbody].
  rewrite (Decl_steps lib fn Hname Hbody) in H.
  destruct (descr.group lib (gen.args fn)); [|discriminate].
  destruct (descr.group lib (gen.returns fn)); [|discriminate].
  destruct (descr.group lib [gen.receiver fn]); [|discriminate].
  destruct (gen.parseBlock lib (gen.body fn)); [|discriminate].
  injection H as <-. cbn [FuncDecl_Doc].
  destruct (Split_newline (gen.godoc fn)) as [Hjoin Hlines].
  split.
  - intros ->. reflexivity.
  - intros Hdoc.
    destruct (String.eqb_spec (gen.godoc fn) "") as [E|_]; [contradiction|].
    cbn [negb]. eexists. split; [reflexivity|].
    cbn [CommentGroup_List]. split.
    + rewrite map_map. cbn [Comment_Text]. now rewrite map_id.
    + apply Forall_map. cbn [Comment_Text]. exact Hlines.
Qed.

Lemma Decl_doc_lines_witness :
  exists d,
    gen.Decl sample.lib
      (gen.Body sample.lib
         (gen.Comment (gen.Func "F") ("// F returns." ++ nl ++ "// Twice."))
         "return" []) = Ok d
    /\ FuncDecl_Doc d
       = Some {| CommentGroup_List := [ {| Comment_Text := "// F returns." |};
                                        {| Comment_Text := "// Twice." |} ] |}
    /\ exists comments,
         FuncDecl_Doc d = Some comments
         /\ descr.Join (map Comment_Text (CommentGroup_List comments)) nl
            = "// F returns." ++ nl ++ "// Twice."
         /\ Forall (fun c => strings.Contains (Comment_Text c) nl = false)
                   (CommentGroup_List comments).
Proof.
  pose (fn := gen.Body sample.lib
                (gen.Comment (gen.Func "F") ("// F returns." ++ nl ++ "// Twice."))
                "return" []).
  destruct (gen.Decl sample.lib fn) as [d|e] eqn:E; [|vm_compute in E; discriminate].
  exists d. split; [exact E|]. split.
  - vm_compute in E. injection E as <-. reflexivity.
  - apply (proj2 (Decl_doc_lines sample.lib fn d E)). vm_compute. discriminate.
Defined.

(** ** What the stride-3 loop visits *)

Lemma forBy3_returns_inv {St : Type} (body : nat -> St -> panics St) (P : nat -> Prop) :
  (forall i st st', body i st = Return st' -> P i) ->
  forall rounds i n st st',
    n <= i + 3 * rounds ->
    gen.forBy3 rounds i n body st = Return st' ->
    forall k, i + 3 * k < n -> P (i + 3 * k).
Proof.
  intros Hbody.
  induction rounds as [|rounds IH]; intros i n st st' Hn H k Hk; [lia|].
  cbn [gen.forBy3] in H.
  destruct (Nat.ltb_spec i n) as [Hlt|Hge]; [|lia].
  destruct (body i st) as [st1|msg] eqn:E; [|discriminate].
  cbn [bindP] in H.
  destruct k as [|k].
  - replace (i + 3 * 0) with i by lia. exact (Hbody _ _ _ E).
  - replace (i + 3 * S k) with (i + 3 + 3 * k) by lia.
    apply (IH (i + 3) n st1 st'); [lia|exact H|lia].
Qed.

Lemma forBy3_panic_inv {St : Type} (body : nat -> St -> panics St)
      (Q : string -> Prop) (m : nat) :
  (forall j st msg, j < m -> body (3 * j) st = Panic msg -> Q msg) ->
  forall rounds k st msg,
    gen.forBy3 rounds (3 * k) (3 * m) body st = Panic msg -> Q msg.
Proof.
  intros Hbody.
  induction rounds as [|rounds IH]; intros k st msg H; [discriminate|].
  cbn [gen.forBy3] in H.
  destruct (Nat.ltb_spec (3 * k) (3 * m)) as [Hlt|Hge]; [|discriminate].
  destruct (body (3 * k) st) as [st1|msg1] eqn:E; cbn [bindP] in H.
  - replace (3 * k + 3) with (3 * S k) in H by lia. exact (IH _ _ _ H).
  - injection H as <-. apply (Hbody k st msg1); [lia|exact E].
Qed.

(** ** Struct: exactly when it returns, and how it can panic *)

Lemma structStep_returns_inv (args : list (option Expr)) (i : nat)
      (fields fields' : list Field) :
  gen.structStep args i fields = Return fields' ->
  triples.nameOk (nth i args None) = true
  /\ triples.tagOk (nth (i + 2) args None) = true.
Proof.
  unfold gen.structStep, index. intros H.
  destruct (nth_error args i) as [name|] eqn:E0; [|discriminate].
  destruct (nth_error args (i + 1)) as [typ|]; [|discriminate].
  destruct (nth_error args (i + 2)) as [tag|] eqn:E2; [|discriminate].
  rewrite (nth_error_nth _ _ None E0), (nth_error_nth _ _ None E2).
  cbn [bindP] in H.
  destruct name as [[?|?|?|? ?|?]|]; try discriminate H;
    destruct tag as [[?|?|?|? ?|?]|]; try discriminate H; split; reflexivity.
Qed.

(** X8.  [Struct] returns only for an argument list whose length is a
    multiple of 3 and whose name and tag arguments are nil or of the
    documented node kinds: on every other argument list it panics. *)
Theorem Struct_returns_only_well_typed (args : list (option Expr)) (st : StructType) :
  gen.Struct args = Return st ->
  length args mod 3 = 0 /\ triples.wellTyped args.
Proof.
  unfold gen.Struct. intros H.
  destruct (Nat.eqb_spec (length args mod 3) 0) as [Hmod|]; [|discriminate].
  split; [exact Hmod|].
  cbn [negb] in H.
  destruct (gen.forBy3 (length args) 0 (length args) (gen.structStep args) [])
    as [fields|msg] eqn:E; [|discriminate].
  pose proof (length_triples args Hmod) as Hlen.
  intros j Hj. unfold triples.nameArg, triples.lastArg.
  apply (forBy3_returns_inv (gen.structStep args)
           (fun i => triples.nameOk (nth i args None) = true
                     /\ triples.tagOk (nth (i + 2) args None) = true)
           (structStep_returns_inv args)
           (length args) 0 (length args) [] fields); [lia|exact E|lia].
Qed.

Lemma Struct_returns_only_well_typed_witness :
  gen.Struct [None; Some (gen.SimpleType "int");
              Some (EBasicLit {| BasicLit_Kind := STRING; BasicLit_Value := "`k`" |})]
  = Return {| StructType_Fields :=
                Some {| FieldList_List :=
                          [ {| Field_Names := [];
                               Field_Type := Some (gen.SimpleType "int");
                               Field_Tag := Some {| BasicLit_Kind := STRING;
                                                    BasicLit_Value := "`k`" |} |} ] |} |}
  /\ triples.wellTyped
       [None; Some (gen.SimpleType "int");
        Some (EBasicLit {| BasicLit_Kind := STRING; BasicLit_Value := "`k`" |})].
Proof.
  match goal with
  | |- ?A /\ _ => assert A as H by reflexivity
  end.
  split; [exact H|].
  exact (proj2 (Struct_returns_only_well_typed _ _ H)).
Defined.

Lemma structStep_panic_inv (args : list (option Expr)) (i : nat)
      (fields : list Field) (msg : string) :
  i + 2 < length args ->
  gen.structStep args i fields = Panic msg ->
  msg = "interface conversion: ast.Expr is not *ast.Ident"
  \/ msg = "interface conversion: ast.Expr is not *ast.BasicLit".
Proof.
  intros Hi. unfold gen.structStep.
  rewrite (index_nth args i None) by lia.
  rewrite (index_nth args (i + 1) None) by lia.
  rewrite (index_nth args (i + 2) None) by lia.
  cbn [bindP].
  destruct (nth i args None) as [[?|?|?|? ?|?]|];
    destruct (nth (i + 2) args None) as [[?|?|?|? ?|?]|];
    cbn [bindP gen.assertIdent gen.assertBasicLit]; intros H;
    try discriminate H; injection H as <-; auto.
Qed.

(** X9.  [Struct] panics in only three ways: with the arity message, which
    names the number of arguments, or in one of the two type assertions.
    It never indexes its arguments out of range. *)
Theorem Struct_panic_messages (args : list (option Expr)) (msg : string) :
  gen.Struct args = Panic msg ->
  (length args mod 3 <> 0
   /\ msg = "Number of args to FieldList must be a multiple of 3, got "
              ++ strconv.Itoa (length args))
  \/ msg = "interface conversion: ast.Expr is not *ast.Ident"
  \/ msg = "interface conversion: ast.Expr is not *ast.BasicLit".
Proof.
  unfold gen.Struct. intros H.
  destruct (Nat.eqb_spec (length args mod 3) 0) as [Hmod|Hmod]; cbn [negb] in H.
  - right.
    destruct (gen.forBy3 (length args) 0 (length args) (gen.structStep args) [])
      as [fields|msg'] eqn:E; [discriminate|].
    cbn [bindP] in H. injection H as <-.
    pose proof (length_triples args Hmod) as Hlen.
    rewrite Hlen in E at 2. change 0 with (3 * 0) in E at 1.
    refine (forBy3_panic_inv (gen.structStep args)
              (fun m => m = "interface conversion: ast.Expr is not *ast.Ident"
                        \/ m = "interface conversion: ast.Expr is not *ast.BasicLit")
              (length args / 3) _ (length args) 0 [] msg' E).
    intros j st m Hj Hstep.
    apply (structStep_panic_inv args (3 * j) st m); [lia|exact Hstep].
  - left. injection H as <-. split; [exact Hmod|reflexivity].
Qed.

Lemma Struct_panic_messages_witness :
  gen.Struct [Some (gen.SimpleType "X"); None; Some (gen.SimpleType "tag")]
  = Panic "interface conversion: ast.Expr is not *ast.BasicLit"
  /\ gen.Struct [Some (gen.SimpleType "X"); None]
     = Panic "Number of args to FieldList must be a multiple of 3, got 2".
Proof.
  split.
  - destruct (gen.Struct [Some (gen.SimpleType "X"); None; Some (gen.SimpleType "tag")])
      as [st|msg] eqn:E; [vm_compute in E; discriminate|].
    destruct (Struct_panic_messages _ _ E) as [[Hmod _]|[->| ->]].
    + vm_compute in Hmod. contradiction.
    + vm_compute in E. discriminate.
    + reflexivity.
  - destruct (gen.Struct [Some (gen.SimpleType "X"); None]) as [st|msg] eqn:E;
      [vm_compute in E; discriminate|].
    destruct (Struct_panic_messages _ _ E) as [[_ ->]|[->| ->]].
    + reflexivity.
    + vm_compute in E. discriminate.
    + vm_compute in E. discriminate.
Defined.

(** ** constDecl: arity *)

(** X10.  For every literal kind, [constDecl] panics exactly when the number
    of arguments is not a multiple of 3, and always with the same message,
    which names ConstString whatever the kind. *)
Theorem constDecl_arity (lib : golib) (kind : Token) (args : list string) :
  (length args mod 3 <> 0 ->
     gen.constDecl lib kind args
     = Panic "Number of values passed to ConstString must be a multiple of 3")
  /\
  (forall msg, gen.constDecl lib kind args = Panic msg ->
               length args mod 3 <> 0).
Proof.
  split.
  - intros Hmod. unfold gen.constDecl.
    destruct (Nat.eqb_spec (length args mod 3) 0); [contradiction|reflexivity].
  - intros msg H Hmod. rewrite (constDecl_returns lib kind args Hmod) in H.
    discriminate.
Qed.

Lemma constDecl_arity_witness :
  length ["Pi"; "float64"] mod 3 <> 0
  /\ gen.ConstFloat sample.lib ["Pi"; "float64"]
     = Panic "Number of values passed to ConstString must be a multiple of 3".
Proof.
  assert (length ["Pi"; "float64"] mod 3 <> 0) as H by (vm_compute; discriminate).
  split; [exact H|].
  exact (proj1 (constDecl_arity sample.lib FLOAT _) H).
Defined.

(** ** String: the raw form read back *)

Lemma Contains_char_cons (a c : ascii) (s : string) :
  strings.Contains (String a s) (String c "")
  = Ascii.eqb a c || strings.Contains s (String c "").
Proof.
  unfold strings.Contains. rewrite Index_unfold. cbn [strings.HasPrefix].
  destruct (Ascii.eqb a c); cbn [andb orb]; [reflexivity|].
  destruct (strings.Index s (String c "")); reflexivity.
Qed.

Lemma removeCR_unchanged (s : string) :
  strings.Contains s (String CR "") = false -> strconv.removeCR s = s.
Proof.
  induction s as [|a s IH]; intros H; [reflexivity|].
  rewrite Contains_char_cons in H. apply orb_false_elim in H.
  destruct H as [Ha Hs]. cbn [strconv.removeCR]. rewrite Ha. f_equal. now apply IH.
Qed.

(** X11.  For text that contains a double quote and no backquote, the
    literal built by [String] is a raw literal that denotes the text with
    its carriage returns removed; when the text has no carriage return
    either, the literal denotes exactly the text. *)
Theorem String_raw_round_trip (lib : golib) (s : string) :
  strings.Contains s dquote = true ->
  strings.Contains s backquote = false ->
  strconv.UnquoteRaw (BasicLit_Value (gen.String lib s)) = Some (strconv.removeCR s)
  /\ (strings.Contains s (String CR "") = false ->
      strconv.UnquoteRaw (BasicLit_Value (gen.String lib s)) = Some s).
Proof.
  intros Hq Hb.
  rewrite (String_raw_content lib s Hq Hb). cbn [BasicLit_Value].
  rewrite (UnquoteRaw_backquoted s Hb).
  split; [reflexivity|]. intros Hcr. now rewrite (removeCR_unchanged s Hcr).
Qed.

Lemma String_raw_round_trip_witness :
  strings.Contains ("say " ++ dquote ++ "hi" ++ dquote) dquote = true
  /\ strings.Contains ("say " ++ dquote ++ "hi" ++ dquote) backquote = false
  /\ strings.Contains ("say " ++ dquote ++ "hi" ++ dquote) (String CR "") = false
  /\ strconv.UnquoteRaw
       (BasicLit_Value (gen.String sample.lib ("say " ++ dquote ++ "hi" ++ dquote)))
     = Some ("say " ++ dquote ++ "hi" ++ dquote).
Proof.
  split; [reflexivity|]. split; [reflexivity|]. split; [reflexivity|].
  apply (proj2 (String_raw_round_trip sample.lib
                  ("say " ++ dquote ++ "hi" ++ dquote) eq_refl eq_refl)).
  reflexivity.
Defined.

(** ** Public, applied twice *)

Ltac ascii_cases :=
  repeat match goal with
         | |- context [N.leb ?a ?b] => destruct (N.leb_spec a b)
         | |- context [N.eqb ?a ?b] => destruct (N.eqb_spec a b)
         end;
  cbn [andb orb]; try lia; try reflexivity.

Lemma ToTitle_ascii (lib : golib) (r : N) :
  (r <= 127)%N ->
  (unicode.ToTitle lib r <= 127)%N
  /\ unicode.ToTitle lib (unicode.ToTitle lib r) = unicode.ToTitle lib r
  /\ strings.isSeparator lib (unicode.ToTitle lib r) = strings.isSeparator lib r.
Proof.
  intros H.
  unfold unicode.ToTitle, strings.isSeparator, utf8.inRange.
  change (N.of_nat unicode.MaxASCII) with 127%N.
  change (unicode.rune "a") with 97%N. change (unicode.rune "z") with 122%N.
  change (unicode.rune "A") with 65%N. change (unicode.rune "Z") with 90%N.
  change (unicode.rune "0") with 48%N. change (unicode.rune "9") with 57%N.
  change (unicode.rune "_") with 95%N.
  rewrite (proj2 (N.leb_le r 127) H).
  destruct (N.leb_spec 97 r); destruct (N.leb_spec r 122); cbn [andb].
  - assert (r - 32 <= 127)%N as H' by lia.
    rewrite !(proj2 (N.leb_le (r - 32) 127) H').
    split; [exact H'|]. split; ascii_cases.
  - rewrite !(proj2 (N.leb_le r 127) H).
    split; [exact H|]. split; ascii_cases.
  - rewrite !(proj2 (N.leb_le r 127) H).
    split; [exact H|]. split; ascii_cases.
  - rewrite !(proj2 (N.leb_le r 127) H).
    split; [exact H|]. split; ascii_cases.
Qed.

Lemma isASCII_byte (c : ascii) :
  Nat.leb (nat_of_ascii c) unicode.MaxASCII = true -> (N_of_ascii c <= 127)%N.
Proof.
  intros H. apply Nat.leb_le in H.
  unfold nat_of_ascii, unicode.MaxASCII in H. lia.
Qed.

Lemma Title_step_ascii (lib : golib) (prev : N) (c : ascii) (s : string) :
  (N_of_ascii c <= 127)%N ->
  strings.mapRunes (strings.titleMapping lib) prev 0 (String c s)
  = String (ascii_of_N (snd (strings.titleMapping lib prev (N_of_ascii c))))
           (strings.mapRunes (strings.titleMapping lib) (N_of_ascii c) 0 s).
Proof.
  intros Hc.
  assert (utf8.DecodeRuneInString (String c s) = (N_of_ascii c, 1)) as Hd.
  { cbv beta iota zeta delta [utf8.DecodeRuneInString].
    now rewrite (proj2 (N.ltb_lt (N_of_ascii c) 128)) by lia. }
  rewrite Title_step by discriminate. rewrite Hd.
  cbn [fst snd strings.drop strings.titleMapping].
  assert ((if strings.isSeparator lib prev
           then unicode.ToTitle lib (N_of_ascii c) else N_of_ascii c) <= 127)%N as Hr.
  { destruct (strings.isSeparator lib prev); [|exact Hc].
    exact (proj1 (ToTitle_ascii lib _ Hc)). }
  unfold utf8.EncodeRune. rewrite (proj2 (N.leb_le _ 127) Hr). reflexivity.
Qed.

Lemma Title_twice_ascii (lib : golib) (s : string) :
  descr.isASCII s = true ->
  forall prev prev',
    strings.isSeparator lib prev' = strings.isSeparator lib prev ->
    strings.mapRunes (strings.titleMapping lib) prev' 0
      (strings.mapRunes (strings.titleMapping lib) prev 0 s)
    = strings.mapRunes (strings.titleMapping lib) prev 0 s.
Proof.
  induction s as [|c s IH]; intros Hs prev prev' Hp; [reflexivity|].
  cbn [descr.isASCII] in Hs. apply andb_prop in Hs. destruct Hs as [Hc Hs].
  apply isASCII_byte in Hc.
  destruct (ToTitle_ascii lib _ Hc) as (Hle & Htt & Hsep).
  rewrite (Title_step_ascii lib prev c s Hc).
  cbn [snd strings.titleMapping].
  set (r := if strings.isSeparator lib prev
            then unicode.ToTitle lib (N_of_ascii c) else N_of_ascii c).
  assert (r <= 127)%N as Hr by (subst r; now destruct (strings.isSeparator lib prev)).
  assert (N_of_ascii (ascii_of_N r) = r) as Hemb by (apply N_ascii_embedding; lia).
  rewrite Title_step_ascii by (rewrite Hemb; exact Hr).
  rewrite Hemb. cbn [snd strings.titleMapping]. rewrite Hp.
  assert ((if strings.isSeparator lib prev then unicode.ToTitle lib r else r) = r) as Hfix.
  { subst r. destruct (strings.isSeparator lib prev); [exact Htt|reflexivity]. }
  rewrite Hfix. f_equal.
  apply IH; [exact Hs|].
  subst r. destruct (strings.isSeparator lib prev); [exact Hsep|reflexivity].
Qed.

(** X12.  On an ASCII name [Public] is idempotent: making the public form
    of a name public again changes nothing. *)
Theorem Public_idempotent (lib : golib) (name : string) :
  descr.isASCII name = true ->
  gen.Public lib (Ident_Name (gen.Public lib name)) = gen.Public lib name.
Proof.
  intros H. unfold gen.Public, strings.Title, strings.Map. cbn [Ident_Name NewIdent].
  f_equal. now apply Title_twice_ascii.
Qed.

Lemma Public_idempotent_witness :
  descr.isASCII "max-items per_page" = true
  /\ gen.Public sample.lib "max-items per_page" = NewIdent "Max-Items Per_page"
  /\ gen.Public sample.lib (Ident_Name (gen.Public sample.lib "max-items per_page"))
     = gen.Public sample.lib "max-items per_page".
Proof.
  split; [reflexivity|]. split; [reflexivity|].
  apply Public_idempotent. reflexivity.
Defined.

(** ** Body: text without verbs *)

Lemma Sprintf_other_char (lib : golib) (c : ascii) (rest : string) (v : list string) :
  Ascii.eqb c "%" = false ->
  fmt.Sprintf lib (String c rest) v = String c (fmt.Sprintf lib rest v).
Proof.
  destruct c as [[] [] [] [] [] [] [] []]; intros H;
    try discriminate H; reflexivity.
Qed.

Lemma Sprintf_plain (lib : golib) (format : string) :
  strings.Contains format "%" = false -> fmt.Sprintf lib format [] = format.
Proof.
  induction format as [|c format IH]; intros H; [reflexivity|].
  rewrite Contains_char_cons in H. apply orb_false_elim in H.
  destruct H as [Hc Hrest].
  rewrite (Sprintf_other_char lib c format [] Hc). f_equal. now apply IH.
Qed.

(** X14.  [Body] called with a text that has no percent sign and with no
    operands stores the text as it is, and leaves every other part of the
    builder untouched. *)
Theorem Body_plain_text (lib : golib) (fn : gen.Function) (text : string) :
  strings.Contains text "%" = false ->
  gen.body (gen.Body lib fn text []) = text
  /\ gen.Body lib fn text []
     = {| gen.name := gen.name fn; gen.receiver := gen.receiver fn;
          gen.godoc := gen.godoc fn; gen.args := gen.args fn;
          gen.returns := gen.returns fn; gen.body := text |}.
Proof.
  intros H. unfold gen.Body. cbn [gen.body].
  rewrite (Sprintf_plain lib text H). split; reflexivity.
Qed.

Lemma Body_plain_text_witness :
  strings.Contains "return x + 1" "%" = false
  /\ gen.body (gen.Body sample.lib (gen.Func "F") "return x + 1" []) = "return x + 1".
Proof.
  assert (strings.Contains "return x + 1" "%" = false) as H by reflexivity.
  split; [exact H|].
  exact (proj1 (Body_plain_text sample.lib (gen.Func "F") "return x + 1" H)).
Defined.

(** ** FieldList on a concatenation *)

Lemma fieldListLoop_app (lib : golib) (a b : list string) :
  forall res,
    gen.fieldListLoop lib (a ++ b) res
    = match gen.fieldListLoop lib a res with
      | Ok list => gen.fieldListLoop lib b (FieldList_List list)
      | Err e => Err e
      end.
Proof.
  induction a as [|s a IH]; intros res; [reflexivity|].
  rewrite <- app_comm_cons, !fieldListLoop_step.
  destruct (parser_ParseExpr lib (descr.typeText s)); [apply IH|reflexivity].
Qed.

Lemma fieldListLoop_from (lib : golib) (fields : list string) :
  forall res,
    gen.fieldListLoop lib fields res
    = match gen.fieldListLoop lib fields [] with
      | Ok list => Ok {| FieldList_List := res ++ FieldList_List list |}
      | Err e => Err e
      end.
Proof.
  induction fields as [|s rest IH]; intros res.
  - cbn [gen.fieldListLoop FieldList_List]. now rewrite app_nil_r.
  - rewrite !fieldListLoop_step.
    destruct (parser_ParseExpr lib (descr.typeText s)) as [t|]; [|reflexivity].
    rewrite (IH (res ++ [descr.fieldOf s t])%list), (IH ([] ++ [descr.fieldOf s t])%list).
    destruct (gen.fieldListLoop lib rest []); [|reflexivity].
    cbn [FieldList_List]. now rewrite <- app_assoc.
Qed.

(** X15.  [FieldList] distributes over concatenation: when two lists of
    descriptors both give field lists, the descriptors of the first followed
    by those of the second give the fields of the first followed by the
    fields of the second. *)
Theorem FieldList_app (lib : golib) (a b : list string) (la lb : FieldList) :
  gen.FieldList lib a = Ok la ->
  gen.FieldList lib b = Ok lb ->
  gen.FieldList lib (a ++ b)
  = Ok {| FieldList_List := FieldList_List la ++ FieldList_List lb |}.
Proof.
  unfold gen.FieldList. intros Ha Hb.
  rewrite fieldListLoop_app, Ha, fieldListLoop_from, Hb. reflexivity.
Qed.

Lemma FieldList_app_witness :
  gen.FieldList sample.lib ["x int"] = Ok {| FieldList_List := [descr.fieldOf "x int" (gen.SimpleType "int")] |}
  /\ gen.FieldList sample.lib ["error"] = Ok {| FieldList_List := [descr.fieldOf "error" (gen.SimpleType "error")] |}
  /\ gen.FieldList sample.lib (["x int"] ++ ["error"])
     = Ok {| FieldList_List := [descr.fieldOf "x int" (gen.SimpleType "int")]
                               ++ [descr.fieldOf "error" (gen.SimpleType "error")] |}.
Proof.
  split; [reflexivity|]. split; [reflexivity|].
  exact (FieldList_app sample.lib ["x int"] ["error"] _ _ eq_refl eq_refl).
Defined.

(** ** Function.Decl: which lists are present *)

Lemma group_none_iff (lib : golib) (items : list string) (list : option FieldList) :
  descr.group lib items = Ok list ->
  (list = None <-> items = [] \/ exists rest, items = "" :: rest).
Proof.
  unfold descr.group. intros H.
  destruct items as [|a0 rest].
  - injection H as <-. split; [now left|reflexivity].
  - destruct (String.eqb_spec a0 "") as [->|Hne].
    + injection H as <-. split; [intros _; right; now exists rest|reflexivity].
    + destruct (gen.FieldList lib (a0 :: rest)); [|discriminate].
      injection H as <-. split; [discriminate|].
      intros [E|[rest' E]]; [discriminate|]. injection E as E _. contradiction.
Qed.

(** X16.  In a finished declaration the receiver list is absent exactly
    when the receiver text is empty (the declaration is a plain function),
    the parameter list is absent exactly when there are no argument
    descriptors or the first one is empty, and likewise the result list. *)
Theorem Decl_absent_lists (lib : golib) (fn : gen.Function) (d : FuncDecl) :
  gen.Decl lib fn = Ok d ->
  (FuncDecl_Recv d = None <-> gen.receiver fn = "")
  /\ (FuncType_Params (FuncDecl_Type d) = None
      <-> gen.args fn = [] \/ exists rest, gen.args fn = "" :: rest)
  /\ (FuncType_Results (FuncDecl_Type d) = None
      <-> gen.returns fn = [] \/ exists rest, gen.returns fn = "" :: rest).
Proof.
  intros H.
  destruct (Decl_set lib fn d H) as [Hname Hbody].
  rewrite (Decl_steps lib fn Hname Hbody) in H.
  destruct (descr.group lib (gen.args fn)) as [args_|e] eqn:Ha; [|discriminate].
  destruct (descr.group lib (gen.returns fn)) as [returns_|e] eqn:Hr; [|discriminate].
  destruct (descr.group lib [gen.receiver fn]) as [receiver_|e] eqn:Hc; [|discriminate].
  destruct (gen.parseBlock lib (gen.body fn)) as [body_|e]; [|discriminate].
  injection H as <-.
  cbn [FuncDecl_Type FuncType_Params FuncType_Results FuncDecl_Recv].
  split; [|split].
  - rewrite (group_none_iff lib _ _ Hc). split.
    + intros [E|[rest E]]; [discriminate|]. now injection E.
    + intros ->. right. now exists [].
  - exact (group_none_iff lib _ _ Ha).
  - exact (group_none_iff lib _ _ Hr).
Qed.

Lemma Decl_absent_lists_witness :
  exists d,
    gen.Decl sample.lib (gen.Body sample.lib (gen.Returns (gen.Func "F") ["int"]) "return x" [])
    = Ok d
    /\ FuncDecl_Recv d = None
    /\ FuncType_Params (FuncDecl_Type d) = None.
Proof.
  pose (fn := gen.Body sample.lib (gen.Returns (gen.Func "F") ["int"]) "return x" []).
  destruct (gen.Decl sample.lib fn) as [d|e] eqn:E; [|vm_compute in E; discriminate].
  exists d. split; [exact E|].
  destruct (Decl_absent_lists sample.lib fn d E) as (Hc & Ha & _).
  split; [apply Hc; reflexivity|apply Ha; left; reflexivity].
Defined.
